(** * AQI server: the fallback and caching data-acquisition pipeline

    A shallow embedding of [src/app.py]: the synthetic data generator
    ([FakeDataGenerator]), the acquisition service ([AQIService]) with its
    SQLite-backed store, the start-up backfill job and the three data routes.

    Conventions of the embedding.
    - Python [float]s are rationals ([Q]): arithmetic is exact, and NaN and
      the infinities are not represented.  Python [int]s are [Z].
    - Python dictionaries, lists and JSON documents are values of
      [Py.value]; a dictionary is an association list in insertion order.
    - Everything the code reads from outside (random numbers, the clock, the
      upstream provider, the sample file, storage faults) is a field of the
      [world] the functions thread; exceptions are explicit ([Raise]). *)

From Stdlib Require Import ZArith QArith Qabs Qround List String Ascii Bool.
From Stdlib Require Import Lia Lqa Permutation Sorted.
From Equations Require Import Equations.
Import ListNotations.

Set Warnings "-register-all".
Local Open Scope string_scope.
Local Open Scope list_scope.
Local Open Scope Q_scope.

(** ** Python values and the exceptions the code can meet *)

Module Py.

Inductive value : Type :=
| PNone
| PBool (b : bool)
| PInt (z : Z)
| PFloat (q : Q)
| PStr (s : string)
| PList (l : list value)
| PDict (d : list (string * value)).

Inductive exn : Type :=
| KeyError (k : string)
| TypeError
| IndexError
| AttributeError
| ValueError
| OverflowError
| OperationalError      (* sqlite3: cannot open, locked, disk error *)
| IntegrityError        (* sqlite3: NOT NULL constraint failed *)
| InterfaceError        (* sqlite3: unsupported parameter type *)
| ConnectionError       (* requests: network failure or timeout *)
| HTTPError (status : Z)  (* requests: raise_for_status *)
| JSONDecodeError.

Inductive result (A : Type) : Type :=
| Ok (a : A)
| Raise (e : exn).
Arguments Ok {A} a.
Arguments Raise {A} e.

Definition dict := list (string * value).

(** [d.get(k)] on the association list: the first binding of [k]. *)
Fixpoint lookup (k : string) (d : dict) : option value :=
  match d with
  | [] => None
  | (k', v) :: d' => if String.eqb k k' then Some v else lookup k d'
  end.

(** [d[k] = v]: overwrite in place, or append a new key. *)
Fixpoint assign (k : string) (v : value) (d : dict) : dict :=
  match d with
  | [] => [(k, v)]
  | (k', v') :: d' =>
      if String.eqb k k' then (k, v) :: d' else (k', v') :: assign k v d'
  end.

(** [o[k]] with a string key. *)
Definition getitem (o : value) (k : string) : result value :=
  match o with
  | PDict d => match lookup k d with Some v => Ok v | None => Raise (KeyError k) end
  | _ => Raise TypeError
  end.

Fixpoint chars (s : string) : list value :=
  match s with
  | EmptyString => []
  | String c s' => PStr (String c EmptyString) :: chars s'
  end.

(** [o[i]] with a non-negative integer index. *)
Definition getindex (o : value) (i : nat) : result value :=
  match o with
  | PList l => match nth_error l i with Some v => Ok v | None => Raise IndexError end
  | PStr s => match nth_error (chars s) i with Some v => Ok v | None => Raise IndexError end
  | PDict _ => Raise (KeyError "int")
  | _ => Raise TypeError
  end.

(** [o.get(k, default)]: only dictionaries have the method. *)
Definition get (o : value) (k : string) (default : value) : result value :=
  match o with
  | PDict d => Ok (match lookup k d with Some v => v | None => default end)
  | _ => Raise AttributeError
  end.

(** [o[k] = v]. *)
Definition setitem (o : value) (k : string) (v : value) : result value :=
  match o with
  | PDict d => Ok (PDict (assign k v d))
  | _ => Raise TypeError
  end.

(** [isinstance(o, dict)]. *)
Definition is_dict (o : value) : bool :=
  match o with PDict _ => true | _ => false end.

(** [k in o] for a dictionary [o]. *)
Definition has_key (o : value) (k : string) : bool :=
  match o with
  | PDict d => match lookup k d with Some _ => true | None => false end
  | _ => false
  end.

(** [for item in o]: the items the loop visits. *)
Definition iter (o : value) : result (list value) :=
  match o with
  | PList l => Ok l
  | PStr s => Ok (chars s)
  | PDict d => Ok (map (fun kv => PStr (fst kv)) d)
  | _ => Raise TypeError
  end.

(** Truth value of an object, as [if o:], [not o], [and] and [all] test it. *)
Definition truthy (o : value) : bool :=
  match o with
  | PNone => false
  | PBool b => b
  | PInt z => negb (Z.eqb z 0)
  | PFloat q => negb (Qeq_bool q 0)
  | PStr s => negb (String.eqb s "")
  | PList l => match l with [] => false | _ => true end
  | PDict d => match d with [] => false | _ => true end
  end.

(** [int(x)] of a float: truncation toward zero. *)
Definition int_of_float (q : Q) : Z :=
  if Qle_bool 0 q then Qfloor q else Qceiling q.


Definition of_option_str (o : option string) : value :=
  match o with Some s => PStr s | None => PNone end.

End Py.

Import Py.

Definition Qltb (x y : Q) : bool := negb (Qle_bool y x).

(** ** The [aqi_data] table *)

Module Sql.

Inductive sqlval : Type :=
| SNull
| SInt (z : Z)
| SReal (q : Q)
| SText (s : string).

(** Column affinities of the declared types INTEGER, REAL and TEXT. *)
Inductive affinity : Type := AffInteger | AffReal | AffText.

(** What SQLite does with text and numbers that is outside this model: the
    reading of a text as a numeric literal and the printing of a number. *)
Record casts : Type := {
  text_to_num : string -> option Q;
  num_to_text : sqlval -> string
}.

Definition integral (q : Q) : bool := Z.eqb (Qnum q mod Zpos (Qden q)) 0.

Definition apply_affinity (c : casts) (a : affinity) (v : sqlval) : sqlval :=
  match a, v with
  | _, SNull => SNull
  | AffText, SText s => SText s
  | AffText, n => SText (num_to_text c n)
  | AffInteger, SInt z => SInt z
  | AffInteger, SReal q => if integral q then SInt (Qfloor q) else SReal q
  | AffInteger, SText s =>
      match text_to_num c s with
      | Some q => if integral q then SInt (Qfloor q) else SReal q
      | None => SText s
      end
  | AffReal, SInt z => SReal (inject_Z z)
  | AffReal, SReal q => SReal q
  | AffReal, SText s =>
      match text_to_num c s with Some q => SReal q | None => SText s end
  end.

(** One row of [aqi_data]; the columns keep their names. *)
Record row : Type := {
  id : Z;
  timestamp : sqlval;
  latitude : sqlval;
  longitude : sqlval;
  aqi : sqlval;
  pm2_5 : sqlval;
  pm10 : sqlval;
  co : sqlval;
  no : sqlval;
  no2 : sqlval;
  o3 : sqlval;
  so2 : sqlval;
  nh3 : sqlval;
  location_name : sqlval;
  source : sqlval;
  created_at : Z        (* CURRENT_TIMESTAMP, kept as seconds *)
}.

(** The fourteen values of the INSERT statement, in the order of its
    column list. *)
Record params : Type := {
  p_timestamp : sqlval; p_latitude : sqlval; p_longitude : sqlval;
  p_aqi : sqlval; p_pm2_5 : sqlval; p_pm10 : sqlval; p_co : sqlval;
  p_no : sqlval; p_no2 : sqlval; p_o3 : sqlval; p_so2 : sqlval;
  p_nh3 : sqlval; p_location_name : sqlval; p_source : sqlval
}.

Definition int64_min : Z := (- 2 ^ 63)%Z.
Definition int64_max : Z := (2 ^ 63 - 1)%Z.

(** Binding a Python object to a [?] placeholder. *)
Definition bind (v : value) : result sqlval :=
  match v with
  | PNone => Ok SNull
  | PBool b => Ok (SInt (if b then 1 else 0)%Z)
  | PInt z =>
      if (int64_min <=? z)%Z && (z <=? int64_max)%Z then Ok (SInt z)
      else Raise OverflowError
  | PFloat q => Ok (SReal q)
  | PStr s => Ok (SText s)
  | PList _ | PDict _ => Raise InterfaceError
  end.

Definition is_null (v : sqlval) : bool :=
  match v with SNull => true | _ => false end.

(** AUTOINCREMENT: one more than the largest id used so far. *)
Definition next_id (rows : list row) : Z :=
  (1 + fold_right (fun r m => Z.max (id r) m) 0 rows)%Z.

(** The INSERT of [save_to_database] against the rows visible to the
    transaction: affinities are applied, then the NOT NULL constraints of
    [timestamp], [latitude], [longitude], [aqi] and [source] are checked. *)
Definition insert (c : casts) (now : Z) (visible : list row) (p : params)
  : result row :=
  let r := {|
    id := next_id visible;
    timestamp := apply_affinity c AffInteger (p_timestamp p);
    latitude := apply_affinity c AffReal (p_latitude p);
    longitude := apply_affinity c AffReal (p_longitude p);
    aqi := apply_affinity c AffInteger (p_aqi p);
    pm2_5 := apply_affinity c AffReal (p_pm2_5 p);
    pm10 := apply_affinity c AffReal (p_pm10 p);
    co := apply_affinity c AffReal (p_co p);
    no := apply_affinity c AffReal (p_no p);
    no2 := apply_affinity c AffReal (p_no2 p);
    o3 := apply_affinity c AffReal (p_o3 p);
    so2 := apply_affinity c AffReal (p_so2 p);
    nh3 := apply_affinity c AffReal (p_nh3 p);
    location_name := apply_affinity c AffText (p_location_name p);
    source := apply_affinity c AffText (p_source p);
    created_at := now |} in
  if is_null (timestamp r) || is_null (latitude r) || is_null (longitude r)
     || is_null (aqi r) || is_null (source r)
  then Raise IntegrityError
  else Ok r.

(** Numeric value of a stored value, if it has one. *)
Definition num_of (v : sqlval) : option Q :=
  match v with
  | SInt z => Some (inject_Z z)
  | SReal q => Some q
  | _ => None
  end.

(** [v BETWEEN lo AND hi] for numeric bounds: NULL gives NULL and a text
    sorts after every number, so neither passes the WHERE clause. *)
Definition between (v : sqlval) (lo hi : Q) : bool :=
  match num_of v with
  | Some x => Qle_bool lo x && Qle_bool x hi
  | None => false
  end.

(** The ORDER BY comparison: NULL first, then numbers by value, then
    texts. *)
Definition sql_leb (a b : sqlval) : bool :=
  match a, b with
  | SNull, _ => true
  | _, SNull => false
  | SText s, SText t => String.leb s t
  | SText _, _ => false
  | _, SText _ => true
  | SInt x, SInt y => (x <=? y)%Z
  | SInt x, SReal y => Qle_bool (inject_Z x) y
  | SReal x, SInt y => Qle_bool x (inject_Z y)
  | SReal x, SReal y => Qle_bool x y
  end.

Fixpoint insert_by_timestamp (r : row) (l : list row) : list row :=
  match l with
  | [] => [r]
  | x :: l' =>
      if sql_leb (timestamp r) (timestamp x) then r :: x :: l'
      else x :: insert_by_timestamp r l'
  end.

(** ORDER BY timestamp.  SQL leaves the order of rows with equal
    timestamps open; the model keeps them in table order. *)
Definition order_by_timestamp (l : list row) : list row :=
  fold_right insert_by_timestamp [] l.

Definition in_range (lat_lo lat_hi lon_lo lon_hi : Q) (t_lo t_hi : Z)
  (r : row) : bool :=
  between (latitude r) lat_lo lat_hi
  && between (longitude r) lon_lo lon_hi
  && between (timestamp r) (inject_Z t_lo) (inject_Z t_hi).

(** The SELECT of [get_historical_from_db]. *)
Definition select_range (rows : list row)
  (lat_lo lat_hi lon_lo lon_hi : Q) (t_lo t_hi : Z) : list row :=
  order_by_timestamp (filter (in_range lat_lo lat_hi lon_lo lon_hi t_lo t_hi) rows).

End Sql.

(** ** The environment and the world *)

(** What is fixed when the process starts. *)
Record env : Type := {
  utcoffset : Z -> Z;              (* local time zone: seconds east of UTC *)
  API_SECRET_KEY : option string;  (* os.environ.get('API_SECRET_KEY') *)
  sqlite_casts : Sql.casts;
  parse_float : string -> option Q;     (* float(s), None on ValueError *)
  parse_isoformat : string -> result Z; (* int(fromisoformat(s).timestamp()) *)
  str_of_exn : exn -> string            (* str(e) *)
}.

(** The outcome of one [requests.get]. *)
Inductive http_result : Type :=
| NoResponse                                  (* network failure, timeout *)
| Response (status : Z) (body : option value). (* [None]: body is not JSON *)

Inductive http_request : Type :=
| GetCurrent (lat lon : Q)
| GetForecast (lat lon : Q)
| GetHistory (lat lon : Q) (start_time end_time : Z).

(** FAKE_DATA_FILE on disk. *)
Inductive file_state : Type :=
| Missing
| Unreadable                 (* exists, json.load fails *)
| Content (v : value).

(** A storage failure met by the next Store operation. *)
Inductive fault : Type :=
| NoFault
| FaultConnect
| FaultExecute (n : nat)     (* the n-th [cursor.execute] of the call *)
| FaultCommit.

Inductive log_entry : Type :=
| InfoGenerated (n : nat) (lat lon : Q)
| ErrorApi (e : exn)
| ErrorForecastApi (e : exn)
| ErrorHistoricalApi (e : exn)
| InfoBulkFallback (lat lon : Q)
| ErrorFallback (e : exn)
| PrintSaving (location_name : value)
| InfoSaved (n : nat)
| ErrorDbSave (e : exn)
| ErrorDbQuery (e : exn)
| InfoPopulating (days : Z)
| InfoPopulatingFor (name : string) (existing : nat) (expected : Z)
| InfoSufficient (name : string) (existing : nat)
| ErrorHistoricalRoute (e : exn).

Record world : Type := {
  store : list Sql.row;            (* committed rows of aqi_data *)
  db_fault : fault;
  random : nat -> Q;               (* successive values of random.random() *)
  drawn : nat;                     (* how many were consumed *)
  upstream : nat -> http_result;   (* the provider's answer to the n-th request *)
  sent : list http_request;        (* requests issued so far *)
  clock : Z;                       (* int(time.time()) *)
  fake_data_file : file_state;
  log : list log_entry
}.

Definition with_store (s : list Sql.row) (w : world) : world :=
  {| store := s; db_fault := db_fault w; random := random w; drawn := drawn w;
     upstream := upstream w; sent := sent w; clock := clock w;
     fake_data_file := fake_data_file w; log := log w |}.

Definition with_drawn (n : nat) (w : world) : world :=
  {| store := store w; db_fault := db_fault w; random := random w; drawn := n;
     upstream := upstream w; sent := sent w; clock := clock w;
     fake_data_file := fake_data_file w; log := log w |}.

Definition with_sent (l : list http_request) (w : world) : world :=
  {| store := store w; db_fault := db_fault w; random := random w;
     drawn := drawn w; upstream := upstream w; sent := l; clock := clock w;
     fake_data_file := fake_data_file w; log := log w |}.

Definition with_log (l : list log_entry) (w : world) : world :=
  {| store := store w; db_fault := db_fault w; random := random w;
     drawn := drawn w; upstream := upstream w; sent := sent w; clock := clock w;
     fake_data_file := fake_data_file w; log := l |}.

(** ** State and exceptions *)

(** A computation changes the world and returns or raises; what it did to
    the world before raising stays done. *)
Definition M (A : Type) : Type := world -> result A * world.

Definition ret {A} (a : A) : M A := fun w => (Ok a, w).

Definition bind {A B} (m : M A) (k : A -> M B) : M B :=
  fun w => match m w with
           | (Ok a, w') => k a w'
           | (Raise e, w') => (Raise e, w')
           end.

Definition lift {A} (r : result A) : M A := fun w => (r, w).

(** [try: m  except Exception as e: handler e]. *)
Definition try_except {A} (m : M A) (handler : exn -> M A) : M A :=
  fun w => match m w with
           | (Ok a, w') => (Ok a, w')
           | (Raise e, w') => handler e w'
           end.

Notation "x <- m ;; k" := (bind m (fun x => k))
  (at level 100, m at next level, right associativity).
Notation "m ;;; k" := (bind m (fun _ => k))
  (at level 100, right associativity).

Definition logger (e : log_entry) : M unit :=
  fun w => (Ok tt, with_log (log w ++ [e]) w).

(** [random.random()] and [random.uniform(a, b)]. *)
Definition random_random : M Q :=
  fun w => (Ok (random w (drawn w)), with_drawn (S (drawn w)) w).

Definition random_uniform (a b : Q) : M Q :=
  u <- random_random ;; ret (a + (b - a) * u).

(** [int(time.time())]. *)
Definition time_time : M Z := fun w => (Ok (clock w), w).

Definition HISTORICAL_DAYS : Z := 30.

(** The five fixed locations, as each of the three lists in the source
    spells them. *)
Definition locations : list (Q * Q * string) :=
  [ (40.7128, -74.0060, "New York");
    (51.5074, -0.1278, "London");
    (35.6762, 139.6503, "Tokyo");
    (39.9042, 116.4074, "Beijing");
    (31.2304, 121.4737, "Shanghai") ].

Section App.

Variable E : env.

(** ** FakeDataGenerator *)

(** [datetime.datetime.fromtimestamp(timestamp).hour]. *)
Definition local_hour (timestamp : Z) : Z :=
  (((timestamp + utcoffset E timestamp) / 3600) mod 24)%Z.

Definition generate_fake_data (lat lon : Q) (timestamp : option Z) : M value :=
  timestamp <- match timestamp with Some t => ret t | None => time_time end ;;
  base_pollution <- random_uniform 0.3 0.8 ;;
  let hour := local_hour timestamp in
  let time_factor := 1.0 + 0.3 * inject_Z (Z.abs (hour - 12)) / 12 in
  let base_pollution :=
    if Qltb (Qabs (lat - 39.9042)) 1 && Qltb (Qabs (lon - 116.4074)) 1
    then base_pollution * 1.5
    else if Qltb (Qabs (lat - 31.2304)) 1 && Qltb (Qabs (lon - 121.4737)) 1
    then base_pollution * 1.3
    else base_pollution in
  let base_pollution := base_pollution * time_factor in
  let aqi := Z.min 5 (Z.max 1 (int_of_float (1 + base_pollution * 4))) in
  u_co <- random_uniform (-50) 300 ;;
  u_no <- random_uniform 0 10 ;;
  u_no2 <- random_uniform 0 50 ;;
  u_o3 <- random_uniform (-20) 40 ;;
  u_so2 <- random_uniform 0 20 ;;
  u_pm2_5 <- random_uniform 0 75 ;;
  u_pm10 <- random_uniform 0 150 ;;
  u_nh3 <- random_uniform 0 10 ;;
  ret (PDict
    [ ("coord", PList [PFloat lat; PFloat lon]);
      ("list", PList [ PDict
        [ ("dt", PInt timestamp);
          ("main", PDict [("aqi", PInt aqi)]);
          ("components", PDict
            [ ("co", PFloat (200 + u_co * base_pollution));
              ("no", PFloat (u_no * base_pollution));
              ("no2", PFloat (u_no2 * base_pollution));
              ("o3", PFloat (60 + u_o3 * base_pollution));
              ("so2", PFloat (u_so2 * base_pollution));
              ("pm2_5", PFloat (u_pm2_5 * base_pollution));
              ("pm10", PFloat (u_pm10 * base_pollution));
              ("nh3", PFloat (u_nh3 * base_pollution)) ]) ] ]) ]).

(** One turn of the [while] loop of [generate_bulk_historical_data]. *)
Definition bulk_step (lat lon : Q) (current_time : Z)
  (historical_list : list value) : M (list value) :=
  fake_data <- generate_fake_data lat lon (Some current_time) ;;
  l <- lift (Py.getitem fake_data "list") ;;
  items <- lift (Py.iter l) ;;
  ret (historical_list ++ items).

(* The loop is defined with its body kept folded. *)
Opaque bulk_step.

Equations? bulk_loop (lat lon : Q) (end_time current_time : Z)
  (historical_list : list value) (w : world) : result (list value) * world
  by wf (Z.to_nat (end_time - current_time + 1)) lt :=
  bulk_loop lat lon end_time current_time historical_list w
    with Z_le_dec current_time end_time := {
    | left _ with bulk_step lat lon current_time historical_list w := {
        | (Ok l, w') := bulk_loop lat lon end_time (current_time + 3600) l w'
        | (Raise e, w') := (Raise e, w') }
    | right _ := (Ok historical_list, w) }.
Proof. lia. Qed.

Transparent bulk_step.

Definition generate_bulk_historical_data (lat lon : Q)
  (start_time end_time : Z) : M value :=
  historical_list <- bulk_loop lat lon end_time start_time [] ;;
  logger (InfoGenerated (List.length historical_list) lat lon) ;;;
  let result := PDict [ ("coord", PList [PFloat lat; PFloat lon]);
                        ("list", PList historical_list) ] in
  result <- lift (Py.setitem result "source" (PStr "Synthetic Fallback")) ;;
  ret result.

(** [range(start, stop, step)] for a positive step. *)
Definition range (start stop step : Z) : list Z :=
  map (fun k => (start + step * Z.of_nat k)%Z)
      (seq 0 (Z.to_nat ((stop - start + step - 1) / step))).





(** ** AQIService: the upstream provider *)

Definition requests_get (rq : http_request) : M http_result :=
  fun w =>
    let w' := with_sent (sent w ++ [rq]) w in
    match upstream w (List.length (sent w)) with
    | NoResponse => (Raise ConnectionError, w')
    | r => (Ok r, w')
    end.

Definition raise_for_status (r : http_result) : M unit :=
  match r with
  | Response status _ =>
      if (400 <=? status)%Z && (status <? 600)%Z
      then lift (Raise (HTTPError status)) else ret tt
  | NoResponse => ret tt
  end.

Definition response_json (r : http_result) : M value :=
  match r with
  | Response _ (Some v) => ret v
  | _ => lift (Raise JSONDecodeError)
  end.

(** The [try] block shared by the three fetch operations. *)
Definition fetch_upstream (rq : http_request) : M value :=
  response <- requests_get rq ;;
  raise_for_status response ;;;
  data <- response_json response ;;
  data <- lift (Py.setitem data "source" (PStr "OpenWeatherMap API")) ;;
  ret data.

(** ** AQIService: location names and fallbacks *)

Fixpoint find_location (lat lon : Q) (l : list (Q * Q * string))
  : option string :=
  match l with
  | [] => None
  | (loc_lat, loc_lon, name) :: l' =>
      if Qltb (Qabs (lat - loc_lat)) 0.1 && Qltb (Qabs (lon - loc_lon)) 0.1
      then Some name
      else find_location lat lon l'
  end.

Definition _get_location_name (lat lon : Q) : option string :=
  find_location lat lon locations.

(** A number as a float operand; anything else cannot be subtracted from. *)
Definition to_float (v : value) : result Q :=
  match v with
  | PInt z => Ok (inject_Z z)
  | PFloat q => Ok q
  | PBool b => Ok (if b then 1 else 0)
  | _ => Raise TypeError
  end.

(** [abs(item["coord"][i] - x) < 1]. *)
Definition coord_near (item : value) (i : nat) (x : Q) : M bool :=
  coord <- lift (Py.getitem item "coord") ;;
  c <- lift (Py.getindex coord i) ;;
  c <- lift (to_float c) ;;
  ret (Qltb (Qabs (c - x)) 1).

(** [if location_name: result["location_name"] = location_name], then
    [result["source"] = "Synthetic Fallback"]. *)
Definition tag_fallback (location_name : option string) (result : value)
  : M value :=
  result <- (if Py.truthy (Py.of_option_str location_name)
             then lift (Py.setitem result "location_name"
                                   (Py.of_option_str location_name))
             else ret result) ;;
  lift (Py.setitem result "source" (PStr "Synthetic Fallback")).

(** The [for item in fake_data] loop of [_get_fallback_data]: [Some] is
    the value it returns from inside the loop. *)
Fixpoint first_sample (lat lon : Q) (location_name : option string)
  (items : list value) : M (option value) :=
  match items with
  | [] => ret None
  | item :: rest =>
      near_lat <- coord_near item 0 lat ;;
      near <- (if near_lat then coord_near item 1 lon else ret false) ;;
      if (near : bool) then
        result <- tag_fallback location_name item ;;
        ret (Some result)
      else first_sample lat lon location_name rest
  end.

(** [os.path.exists], [open] and [json.load] on FAKE_DATA_FILE. *)
Definition load_fake_data_file : M (option value) :=
  fun w => match fake_data_file w with
           | Missing => (Ok None, w)
           | Unreadable => (Raise JSONDecodeError, w)
           | Content v => (Ok (Some v), w)
           end.

Definition _get_fallback_data (lat lon : Q) : M value :=
  try_except
    (let location_name := _get_location_name lat lon in
     fake_data <- load_fake_data_file ;;
     found <- match fake_data with
              | Some fake_data =>
                  items <- lift (Py.iter fake_data) ;;
                  first_sample lat lon location_name items
              | None => ret None
              end ;;
     match found with
     | Some result => ret result
     | None =>
         result <- generate_fake_data lat lon None ;;
         tag_fallback location_name result
     end)
    (fun e =>
       logger (ErrorFallback e) ;;;
       result <- generate_fake_data lat lon None ;;
       lift (Py.setitem result "source" (PStr "Synthetic Fallback"))).

Fixpoint forecast_loop (lat lon : Q) (current_time : Z) (hours : list Z)
  (forecast_list : list value) : M (list value) :=
  match hours with
  | [] => ret forecast_list
  | hours_ahead :: rest =>
      let timestamp := (current_time + hours_ahead * 3600)%Z in
      fake_item <- generate_fake_data lat lon (Some timestamp) ;;
      l <- lift (Py.getitem fake_item "list") ;;
      x <- lift (Py.getindex l 0) ;;
      forecast_loop lat lon current_time rest (forecast_list ++ [x])
  end.

Definition _generate_forecast_fallback (lat lon : Q) : M value :=
  current_time <- time_time ;;
  forecast_list <- forecast_loop lat lon current_time (range 0 96 3) [] ;;
  let forecast_data := PDict [ ("coord", PList [PFloat lat; PFloat lon]);
                               ("list", PList forecast_list) ] in
  lift (Py.setitem forecast_data "source" (PStr "Synthetic Fallback")).

(** ** AQIService: the three fetch operations *)

Definition fetch_current_aqi (lat lon : Q) : M value :=
  try_except
    (fetch_upstream (GetCurrent lat lon))
    (fun e => logger (ErrorApi e) ;;; _get_fallback_data lat lon).

Definition fetch_forecast_aqi (lat lon : Q) : M value :=
  try_except
    (fetch_upstream (GetForecast lat lon))
    (fun e => logger (ErrorForecastApi e) ;;;
              _generate_forecast_fallback lat lon).

Definition fetch_historical_aqi (lat lon : Q) (start_time end_time : Z)
  : M value :=
  try_except
    (fetch_upstream (GetHistory lat lon start_time end_time))
    (fun e =>
       logger (ErrorHistoricalApi e) ;;;
       logger (InfoBulkFallback lat lon) ;;;
       generate_bulk_historical_data lat lon start_time end_time).

(** ** AQIService: the Store *)

(** [get_db()]: opening the connection. *)
Definition connect : M unit :=
  fun w => match db_fault w with
           | FaultConnect => (Raise OperationalError, w)
           | _ => (Ok tt, w)
           end.

(** Whether the [n]-th [cursor.execute] of the call meets the fault. *)
Definition execute_fault (n : nat) : M unit :=
  fun w => match db_fault w with
           | FaultExecute k =>
               if Nat.eqb k n then (Raise OperationalError, w) else (Ok tt, w)
           | _ => (Ok tt, w)
           end.

Definition bind_params (dt lat lon aqi pm2_5 pm10 co no no2 o3 so2 nh3
  location_name source : value) : M Sql.params :=
  dt <- lift (Sql.bind dt) ;;
  lat <- lift (Sql.bind lat) ;;
  lon <- lift (Sql.bind lon) ;;
  aqi <- lift (Sql.bind aqi) ;;
  pm2_5 <- lift (Sql.bind pm2_5) ;;
  pm10 <- lift (Sql.bind pm10) ;;
  co <- lift (Sql.bind co) ;;
  no <- lift (Sql.bind no) ;;
  no2 <- lift (Sql.bind no2) ;;
  o3 <- lift (Sql.bind o3) ;;
  so2 <- lift (Sql.bind so2) ;;
  nh3 <- lift (Sql.bind nh3) ;;
  location_name <- lift (Sql.bind location_name) ;;
  source <- lift (Sql.bind source) ;;
  ret {| Sql.p_timestamp := dt; Sql.p_latitude := lat; Sql.p_longitude := lon;
         Sql.p_aqi := aqi; Sql.p_pm2_5 := pm2_5; Sql.p_pm10 := pm10;
         Sql.p_co := co; Sql.p_no := no; Sql.p_no2 := no2; Sql.p_o3 := o3;
         Sql.p_so2 := so2; Sql.p_nh3 := nh3;
         Sql.p_location_name := location_name; Sql.p_source := source |}.

(** The [n]-th [cursor.execute] of the INSERT; [pending] are the rows the
    open transaction has written so far. *)
Definition execute_insert (n : nat) (pending : list Sql.row)
  (p : Sql.params) : M Sql.row :=
  execute_fault n ;;;
  fun w => (Sql.insert (sqlite_casts E) (clock w) (store w ++ pending) p, w).

(** [item["components"].get(k)]. *)
Definition component (item : value) (k : string) : M value :=
  components <- lift (Py.getitem item "components") ;;
  lift (Py.get components k PNone).

(** The [for item in data.get("list", [])] loop. *)
Fixpoint save_items (data lat lon location_name : value) (items : list value)
  (pending : list Sql.row) (saved_count : nat) : M (list Sql.row * nat) :=
  match items with
  | [] => ret (pending, saved_count)
  | item :: rest =>
      dt <- lift (Py.getitem item "dt") ;;
      main <- lift (Py.getitem item "main") ;;
      aqi <- lift (Py.getitem main "aqi") ;;
      pm2_5 <- component item "pm2_5" ;;
      pm10 <- component item "pm10" ;;
      co <- component item "co" ;;
      no <- component item "no" ;;
      no2 <- component item "no2" ;;
      o3 <- component item "o3" ;;
      so2 <- component item "so2" ;;
      nh3 <- component item "nh3" ;;
      source <- lift (Py.get data "source" (PStr "unknown")) ;;
      p <- bind_params dt lat lon aqi pm2_5 pm10 co no no2 o3 so2 nh3
                       location_name source ;;
      r <- execute_insert saved_count pending p ;;
      save_items data lat lon location_name rest (pending ++ [r])
                 (S saved_count)
  end.

(** [conn.commit()]: the rows of the transaction become visible. *)
Definition commit (pending : list Sql.row) : M unit :=
  fun w => match db_fault w with
           | FaultCommit => (Raise OperationalError, w)
           | _ => (Ok tt, with_store (store w ++ pending) w)
           end.

(** The body of the [try] of [save_to_database].  Leaving it by an
    exception closes the connection without a commit, which drops
    [pending]. *)
Definition save_body (data : value) (location_name : option string) : M unit :=
  connect ;;;
  let location_name := Py.of_option_str location_name in
  logger (PrintSaving location_name) ;;;
  location_name <- (if Py.is_dict data && Py.has_key data "location_name"
                    then lift (Py.getitem data "location_name")
                    else ret location_name) ;;
  raw_coord <- lift (Py.get data "coord" (PDict [])) ;;
  lat <- lift (if Py.is_dict raw_coord then Py.get raw_coord "lat" PNone
               else Py.getindex raw_coord 0) ;;
  lon <- lift (if Py.is_dict raw_coord then Py.get raw_coord "lon" PNone
               else Py.getindex raw_coord 1) ;;
  l <- lift (Py.get data "list" (PList [])) ;;
  items <- lift (Py.iter l) ;;
  saved <- save_items data lat lon location_name items [] 0 ;;
  commit (fst saved) ;;;
  logger (InfoSaved (snd saved)).

Definition save_to_database (data : value) (location_name : option string)
  : M unit :=
  try_except (save_body data location_name)
             (fun e => logger (ErrorDbSave e)).

(** The body of the [try] of [get_historical_from_db]; [dict(row)] keeps
    every column under its name, as the record does. *)
Definition query_body (lat lon : Q) (start_time end_time : Z)
  : M (list Sql.row) :=
  connect ;;;
  execute_fault 0 ;;;
  fun w => (Ok (Sql.select_range (store w) (lat - 0.1) (lat + 0.1)
                                 (lon - 0.1) (lon + 0.1)
                                 start_time end_time), w).

Definition get_historical_from_db (lat lon : Q) (start_time end_time : Z)
  : M (list Sql.row) :=
  try_except (query_body lat lon start_time end_time)
             (fun e => logger (ErrorDbQuery e) ;;; ret []).

(** ** The start-up backfill job *)

(** The body of the [for lat, lon, name in locations] loop. *)
Definition populate_location (start_time end_time : Z)
  (loc : Q * Q * string) : M unit :=
  let '(lat, lon, name) := loc in
  existing_data <- get_historical_from_db lat lon start_time end_time ;;
  let expected_data_points := (24 * HISTORICAL_DAYS)%Z in
  if Qltb (inject_Z (Z.of_nat (List.length existing_data)))
          (inject_Z expected_data_points * 0.8)
  then
    logger (InfoPopulatingFor name (List.length existing_data)
                              expected_data_points) ;;;
    historical_data <- fetch_historical_aqi lat lon start_time end_time ;;
    if Py.truthy historical_data then
      historical_data <- lift (Py.setitem historical_data "location_name"
                                          (PStr name)) ;;
      save_to_database historical_data (Some name)
    else ret tt
  else logger (InfoSufficient name (List.length existing_data)).

Fixpoint for_each {A} (f : A -> M unit) (l : list A) : M unit :=
  match l with
  | [] => ret tt
  | x :: l' => f x ;;; for_each f l'
  end.

Definition populate_initial_historical_data : M unit :=
  end_time <- time_time ;;
  let start_time := (end_time - HISTORICAL_DAYS * 24 * 3600)%Z in
  logger (InfoPopulating HISTORICAL_DAYS) ;;;
  for_each (populate_location start_time end_time) locations.

(** ** The Flask routes *)

Record request : Type := {
  x_api_key : option string;          (* request.headers.get('X-API-Key') *)
  args : list (string * string)       (* the query string *)
}.

(** [jsonify(body), status]. *)
Definition response : Type := (value * Z)%type.

Definition error_body (msg : string) : value := PDict [("error", PStr msg)].

Fixpoint arg (k : string) (l : list (string * string)) : option string :=
  match l with
  | [] => None
  | (k', v) :: l' => if String.eqb k k' then Some v else arg k l'
  end.

(** [request.args.get(k, type=float)]. *)
Definition arg_float (rq : request) (k : string) : value :=
  match arg k (args rq) with
  | Some s => match parse_float E s with Some q => PFloat q | None => PNone end
  | None => PNone
  end.

(** [a and b]. *)
Definition py_and (a b : value) : value := if Py.truthy a then b else a.

Definition require_api_key (f : request -> M response) (rq : request)
  : M response :=
  let key := Py.of_option_str (x_api_key rq) in
  let ok := py_and key
              (PBool (match x_api_key rq, API_SECRET_KEY E with
                      | Some k, Some s => String.eqb k s
                      | _, _ => false
                      end)) in
  if Py.truthy ok then f rq
  else ret (error_body "API key is missing or invalid", 401%Z).

(** The functions under the decorator. *)
Definition get_current_aqi (rq : request) : M response :=
  let lat := arg_float rq "lat" in
  let lon := arg_float rq "lon" in
  if negb (Py.truthy (py_and lat lon)) then
    ret (error_body "Location required (lat/lon)", 400%Z)
  else
    lat <- lift (to_float lat) ;;
    lon <- lift (to_float lon) ;;
    data <- fetch_current_aqi lat lon ;;
    if Py.truthy data then
      save_to_database data None ;;;
      ret (data, 200%Z)
    else ret (error_body "Failed to fetch AQI data", 500%Z).

Definition get_forecast_aqi (rq : request) : M response :=
  let lat := arg_float rq "lat" in
  let lon := arg_float rq "lon" in
  if negb (Py.truthy (py_and lat lon)) then
    ret (error_body "Coordinates required", 400%Z)
  else
    lat <- lift (to_float lat) ;;
    lon <- lift (to_float lon) ;;
    data <- fetch_forecast_aqi lat lon ;;
    if Py.truthy data then ret (data, 200%Z)
    else ret (error_body "Failed to fetch forecast data", 500%Z).

Definition value_of_sql (v : Sql.sqlval) : value :=
  match v with
  | Sql.SNull => PNone
  | Sql.SInt z => PInt z
  | Sql.SReal q => PFloat q
  | Sql.SText s => PStr s
  end.

(** [dict(row)]. *)
Definition dict_of_row (r : Sql.row) : value :=
  PDict [ ("id", PInt (Sql.id r));
          ("timestamp", value_of_sql (Sql.timestamp r));
          ("latitude", value_of_sql (Sql.latitude r));
          ("longitude", value_of_sql (Sql.longitude r));
          ("aqi", value_of_sql (Sql.aqi r));
          ("pm2_5", value_of_sql (Sql.pm2_5 r));
          ("pm10", value_of_sql (Sql.pm10 r));
          ("co", value_of_sql (Sql.co r));
          ("no", value_of_sql (Sql.no r));
          ("no2", value_of_sql (Sql.no2 r));
          ("o3", value_of_sql (Sql.o3 r));
          ("so2", value_of_sql (Sql.so2 r));
          ("nh3", value_of_sql (Sql.nh3 r));
          ("location_name", value_of_sql (Sql.location_name r));
          ("source", value_of_sql (Sql.source r));
          ("created_at", PInt (Sql.created_at r)) ].

Definition get_historical_aqi (rq : request) : M response :=
  let lat := arg_float rq "lat" in
  let lon := arg_float rq "lon" in
  let start_date := Py.of_option_str (arg "start" (args rq)) in
  let end_date := Py.of_option_str (arg "end" (args rq)) in
  if negb (forallb Py.truthy [lat; lon; start_date; end_date]) then
    ret (error_body "lat, lon, start, and end parameters required", 400%Z)
  else
    try_except
      (start_ts <- lift (match start_date with
                         | PStr s => parse_isoformat E s
                         | _ => Raise TypeError
                         end) ;;
       end_ts <- lift (match end_date with
                       | PStr s => parse_isoformat E s
                       | _ => Raise TypeError
                       end) ;;
       lat <- lift (to_float lat) ;;
       lon <- lift (to_float lon) ;;
       db_data <- get_historical_from_db lat lon start_ts end_ts ;;
       if Py.truthy (PList (map dict_of_row db_data)) then
         ret (PDict [ ("coord", PList [PFloat lat; PFloat lon]);
                      ("list", PList (map dict_of_row db_data));
                      ("source", PStr "Local Database") ], 200%Z)
       else
         api_data <- fetch_historical_aqi lat lon start_ts end_ts ;;
         if Py.truthy api_data then
           save_to_database api_data None ;;;
           ret (api_data, 200%Z)
         else ret (error_body "No historical data available", 404%Z))
      (fun e =>
         logger (ErrorHistoricalRoute e) ;;;
         ret (error_body (str_of_exn E e), 400%Z)).

(** The routes as Flask serves them. *)
Definition route_current : request -> M response :=
  require_api_key get_current_aqi.
Definition route_forecast : request -> M response :=
  require_api_key get_forecast_aqi.
Definition route_historical : request -> M response :=
  require_api_key get_historical_aqi.

End App.

(** ** Views of an envelope used to state the properties *)

(** The observations of an envelope: the items of its ["list"]. *)
Definition observations (envelope : value) : list value :=
  match Py.getitem envelope "list" with
  | Ok (PList l) => l
  | _ => []
  end.

(** The timestamp of an observation. *)
Definition dt_of (obs : value) : option Z :=
  match Py.getitem obs "dt" with
  | Ok (PInt t) => Some t
  | _ => None
  end.



Definition source_of (envelope : value) : option value :=
  match envelope with PDict d => Py.lookup "source" d | _ => None end.

Definition location_name_of (envelope : value) : option value :=
  match envelope with PDict d => Py.lookup "location_name" d | _ => None end.




(** The value of [base_pollution] when [generate_fake_data] builds its
    result, from the first draw [u]. *)
Definition final_base_pollution (E : env) (lat lon : Q) (t : Z) (u : Q) : Q :=
  (if Qltb (Qabs (lat - 39.9042)) 1 && Qltb (Qabs (lon - 116.4074)) 1
   then (0.3 + (0.8 - 0.3) * u) * 1.5
   else if Qltb (Qabs (lat - 31.2304)) 1 && Qltb (Qabs (lon - 121.4737)) 1
   then (0.3 + (0.8 - 0.3) * u) * 1.3
   else 0.3 + (0.8 - 0.3) * u)
  * (1.0 + 0.3 * inject_Z (Z.abs (local_hour E t - 12)) / 12).

(** The observation [generate_fake_data] builds for time [t] from the nine
    draws [r p], ..., [r (p + 8)]. *)
Definition fake_observation (E : env) (lat lon : Q) (t : Z)
  (r : nat -> Q) (p : nat) : value :=
  let b := final_base_pollution E lat lon t (r p) in
  PDict
    [ ("dt", PInt t);
      ("main", PDict [("aqi", PInt (Z.min 5 (Z.max 1 (Py.int_of_float (1 + b * 4)))))]);
      ("components", PDict
        [ ("co", PFloat (200 + (-50 + (300 - -50) * r (p + 1)%nat) * b));
          ("no", PFloat ((0 + (10 - 0) * r (p + 2)%nat) * b));
          ("no2", PFloat ((0 + (50 - 0) * r (p + 3)%nat) * b));
          ("o3", PFloat (60 + (-20 + (40 - -20) * r (p + 4)%nat) * b));
          ("so2", PFloat ((0 + (20 - 0) * r (p + 5)%nat) * b));
          ("pm2_5", PFloat ((0 + (75 - 0) * r (p + 6)%nat) * b));
          ("pm10", PFloat ((0 + (150 - 0) * r (p + 7)%nat) * b));
          ("nh3", PFloat ((0 + (10 - 0) * r (p + 8)%nat) * b)) ]) ].





(** A row inside the bounding box and the time range of a query. *)
Definition within_range (lat lon : Q) (start_time end_time : Z)
  (r : Sql.row) : Prop :=
  exists la lo t,
    Sql.num_of (Sql.latitude r) = Some la
    /\ Sql.num_of (Sql.longitude r) = Some lo
    /\ Sql.num_of (Sql.timestamp r) = Some t
    /\ lat - 0.1 <= la <= lat + 0.1
    /\ lon - 0.1 <= lo <= lon + 0.1
    /\ inject_Z start_time <= t <= inject_Z end_time.



(** *** What an INSERT stores *)

(** [s] is what the column of affinity [a] holds after [v] was bound. *)
Definition stored_as (E : env) (a : Sql.affinity) (v : value)
  (s : Sql.sqlval) : Prop :=
  exists b, Sql.bind v = Ok b
            /\ s = Sql.apply_affinity (sqlite_casts E) a b.

(** [item["components"].get(k)] when the item has its components. *)
Definition pollutant (item : value) (k : string) : value :=
  match Py.getitem item "components" with
  | Ok (PDict c) => match Py.lookup k c with Some v => v | None => PNone end
  | _ => PNone
  end.

(** The value bound to the source column: [data.get("source", "unknown")]. *)
Definition source_or_unknown (data : value) : value :=
  match source_of data with Some v => v | None => PStr "unknown" end.

(** Row [r] is what the INSERT wrote for [item]. *)
Definition row_of_item (E : env) (data lat lon location_name item : value)
  (r : Sql.row) : Prop :=
  (exists dt, Py.getitem item "dt" = Ok dt
              /\ stored_as E Sql.AffInteger dt (Sql.timestamp r))
  /\ stored_as E Sql.AffReal lat (Sql.latitude r)
  /\ stored_as E Sql.AffReal lon (Sql.longitude r)
  /\ (exists main aqi, Py.getitem item "main" = Ok main
                       /\ Py.getitem main "aqi" = Ok aqi
                       /\ stored_as E Sql.AffInteger aqi (Sql.aqi r))
  /\ stored_as E Sql.AffReal (pollutant item "pm2_5") (Sql.pm2_5 r)
  /\ stored_as E Sql.AffReal (pollutant item "pm10") (Sql.pm10 r)
  /\ stored_as E Sql.AffReal (pollutant item "co") (Sql.co r)
  /\ stored_as E Sql.AffReal (pollutant item "no") (Sql.no r)
  /\ stored_as E Sql.AffReal (pollutant item "no2") (Sql.no2 r)
  /\ stored_as E Sql.AffReal (pollutant item "o3") (Sql.o3 r)
  /\ stored_as E Sql.AffReal (pollutant item "so2") (Sql.so2 r)
  /\ stored_as E Sql.AffReal (pollutant item "nh3") (Sql.nh3 r)
  /\ stored_as E Sql.AffText location_name (Sql.location_name r)
  /\ stored_as E Sql.AffText (source_or_unknown data) (Sql.source r).

(** The same world but for the log, which grew by [l]. *)
Definition logged (l : list log_entry) (w w' : world) : Prop :=
  w' = with_log (log w ++ l) w.

(** *** Well-formed envelopes *)

Definition int64 (z : Z) : bool :=
  (Sql.int64_min <=? z)%Z && (z <=? Sql.int64_max)%Z.

Definition is_number (v : value) : bool :=
  match v with
  | PFloat _ => true
  | PInt z => int64 z
  | _ => false
  end.

Definition is_optional_number (v : value) : bool :=
  match v with PNone => true | _ => is_number v end.

Definition pollutant_keys : list string :=
  ["pm2_5"; "pm10"; "co"; "no"; "no2"; "o3"; "so2"; "nh3"].

(** An Observation: a whole-second timestamp, a category, and pollutant
    concentrations that are numbers, null or absent. *)
Definition is_observation (item : value) : bool :=
  match Py.getitem item "dt", Py.getitem item "main",
        Py.getitem item "components" with
  | Ok (PInt t), Ok main, Ok (PDict _) =>
      int64 t
      && match Py.getitem main "aqi" with
         | Ok (PInt a) => int64 a
         | _ => false
         end
      && forallb (fun k => is_optional_number (pollutant item k))
                 pollutant_keys
  | _, _, _ => false
  end.

(** The coordinate pair of an envelope, in either of its two forms: a
    {lat, lon} object or a two-element sequence. *)
Definition envelope_coord (data : value) : option (value * value) :=
  match Py.getitem data "coord" with
  | Ok (PDict c) =>
      match Py.lookup "lat" c, Py.lookup "lon" c with
      | Some la, Some lo => Some (la, lo)
      | _, _ => None
      end
  | Ok (PList [la; lo]) => Some (la, lo)
  | _ => None
  end.

(** A Reading Envelope: coordinates, a list of Observations, a textual
    source tag if any, and a textual or null location name if any. *)
Definition is_envelope (data : value) : bool :=
  match envelope_coord data, Py.getitem data "list" with
  | Some (la, lo), Ok (PList items) =>
      is_number la && is_number lo
      && forallb is_observation items
      && match source_or_unknown data with PStr _ => true | _ => false end
      && match location_name_of data with
         | None | Some PNone | Some (PStr _) => true
         | _ => false
         end
  | _, _ => false
  end.

(** The location name [save_to_database] writes: the one embedded in the
    envelope if there is one, else the parameter. *)
Definition effective_location_name (data : value) (name : option string)
  : value :=
  match location_name_of data with
  | Some v => v
  | None => Py.of_option_str name
  end.

(** The stored form of a pollutant concentration. *)
Definition stored_real (v : value) : Sql.sqlval :=
  match v with
  | PFloat q => Sql.SReal q
  | PInt z => Sql.SReal (inject_Z z)
  | _ => Sql.SNull
  end.

(** Row [r] carries the timestamp and the pollutant values of [obs], null
    where the observation has none. *)
Definition matches_observation (obs : value) (r : Sql.row) : Prop :=
  (exists t, dt_of obs = Some t /\ Sql.timestamp r = Sql.SInt t)
  /\ Sql.pm2_5 r = stored_real (pollutant obs "pm2_5")
  /\ Sql.pm10 r = stored_real (pollutant obs "pm10")
  /\ Sql.co r = stored_real (pollutant obs "co")
  /\ Sql.no r = stored_real (pollutant obs "no")
  /\ Sql.no2 r = stored_real (pollutant obs "no2")
  /\ Sql.o3 r = stored_real (pollutant obs "o3")
  /\ Sql.so2 r = stored_real (pollutant obs "so2")
  /\ Sql.nh3 r = stored_real (pollutant obs "nh3").

(** The source tags of the data model. *)
Definition source_tags : list string :=
  ["OpenWeatherMap API"; "Synthetic Fallback"; "Local Database"].

(** *** The sample file *)





(** What [tag_fallback] makes of a dictionary. *)
Definition tagged (location_name : option string) (result : Py.dict)
  : value :=
  PDict (Py.assign "source" (PStr "Synthetic Fallback")
           (if Py.truthy (Py.of_option_str location_name)
            then Py.assign "location_name" (Py.of_option_str location_name)
                           result
            else result)).



(** The request without its query parameter [p]. *)
Definition drop_arg (p : string) (rq : request) : request :=
  {| x_api_key := x_api_key rq;
     args := filter (fun kv => negb (String.eqb p (fst kv))) (args rq) |}.


(** The observations the forecast loop appends for the offsets [hours],
    drawing from position [p] on. *)
Fixpoint forecast_points (E : env) (lat lon : Q) (current_time : Z)
  (hours : list Z) (r : nat -> Q) (p : nat) : list value :=
  match hours with
  | [] => []
  | h :: rest =>
      fake_observation E lat lon (current_time + h * 3600) r p
      :: forecast_points E lat lon current_time rest r (p + 9)
  end.



(** The rows [new] were inserted one after the other into a table that
    showed [visible] before the first of them. *)
Fixpoint inserted (c : Sql.casts) (now : Z) (visible new : list Sql.row)
  : Prop :=
  match new with
  | [] => True
  | r :: rest =>
      (exists p, Sql.insert c now visible p = Ok r)
      /\ inserted c now (visible ++ [r]) rest
  end.

(** The table only gained rows. *)
Definition grows (w w' : world) : Prop :=
  exists new, store w' = store w ++ new.

(** The table has the same rows. *)
Definition same_rows (w w' : world) : Prop := store w' = store w.

(** Computation [m] takes every world to one related to it by [R],
    whether it returns or raises. *)
Definition respects (R : world -> world -> Prop) {A} (m : M A) : Prop :=
  forall w, R w (snd (m w)).

(** The request carries a non-empty key equal to the configured one. *)
Definition key_accepted (E : env) (rq : request) : Prop :=
  exists k, x_api_key rq = Some k /\ k <> "" /\ API_SECRET_KEY E = Some k.


(** ** A concrete environment and world for the examples *)

Definition example_env : env := {|
  utcoffset := fun _ => 0%Z;
  API_SECRET_KEY := Some "secret";
  sqlite_casts := {| Sql.text_to_num := fun _ => None;
                     Sql.num_to_text := fun _ => "" |};
  parse_float := fun s =>
    if String.eqb s "0" then Some 0
    else if String.eqb s "51.5" then Some 51.5
    else None;
  parse_isoformat := fun s =>
    if String.eqb s "2023-11-14" then Ok 1699920000%Z else Raise ValueError;
  str_of_exn := fun _ => "error"
|}.

Definition example_world : world := {|
  store := [];
  db_fault := NoFault;
  random := fun _ => 0.3;
  drawn := 0;
  upstream := fun _ => NoResponse;
  sent := [];
  clock := 1700000000%Z;
  fake_data_file := Missing;
  log := []
|}.


(** The same reading with its coordinates as a pair. *)
Definition london_reading_pair : value :=
  PDict [ ("coord", PList [PFloat 51.5074; PFloat (-0.1278)]);
          ("list", PList [ PDict
             [ ("dt", PInt 1700000000);
               ("main", PDict [("aqi", PInt 2)]);
               ("components", PDict [("pm2_5", PFloat 7.5)]) ] ]);
          ("location_name", PStr "London");
          ("source", PStr "Synthetic Fallback") ].



(** A request on the equator, with and without the API key. *)
Definition equator_request (key : option string) : request :=
  {| x_api_key := key;
     args := [("lat", "0"); ("lon", "51.5");
              ("start", "2023-11-14"); ("end", "2023-11-14")] |}.

(** A world whose provider answers every request with the London reading,
    and one whose sample file cannot be read. *)
Definition answering_world : world := {|
  store := [];
  db_fault := NoFault;
  random := fun _ => 0.3;
  drawn := 0;
  upstream := fun _ => Response 200 (Some london_reading_pair);
  sent := [];
  clock := 1700000000%Z;
  fake_data_file := Missing;
  log := []
|}.

Definition unreadable_world : world := {|
  store := [];
  db_fault := NoFault;
  random := fun _ => 0.3;
  drawn := 0;
  upstream := fun _ => NoResponse;
  sent := [];
  clock := 1700000000%Z;
  fake_data_file := Unreadable;
  log := []
|}.

(** An envelope whose second item has no timestamp, and one without
    coordinates. *)
Definition broken_batch : value :=
  PDict [ ("coord", PList [PFloat 51.5074; PFloat (-0.1278)]);
          ("list", PList [ PDict
             [ ("dt", PInt 1700000000);
               ("main", PDict [("aqi", PInt 2)]);
               ("components", PDict [("pm2_5", PFloat 7.5)]) ];
             PDict
             [ ("main", PDict [("aqi", PInt 3)]);
               ("components", PDict []) ] ]);
          ("source", PStr "OpenWeatherMap API") ].

Definition reading_without_coord : value :=
  PDict [ ("list", PList [ PDict
             [ ("dt", PInt 1700000000);
               ("main", PDict [("aqi", PInt 2)]);
               ("components", PDict [("pm2_5", PFloat 7.5)]) ] ]);
          ("source", PStr "OpenWeatherMap API") ].

(** * Properties *)

Section Generator.

Variable E : env.

Lemma Qltb_lt (x y : Q) : Qltb x y = true <-> x < y.
Proof.
  unfold Qltb. rewrite negb_true_iff. split; intro H.
  - apply Qnot_le_lt. intro Hle. apply Qle_bool_iff in Hle. congruence.
  - destruct (Qle_bool y x) eqn:Hb; [|reflexivity].
    apply Qle_bool_iff in Hb. exfalso. apply (Qlt_not_le _ _ H Hb).
Qed.







(** What [generate_fake_data] computes, draw by draw. *)
Lemma generate_fake_data_eq (lat lon : Q) (t : Z) (w : world) :
  generate_fake_data E lat lon (Some t) w =
  (Ok (PDict
    [ ("coord", PList [PFloat lat; PFloat lon]);
      ("list", PList [fake_observation E lat lon t (random w) (drawn w)]) ]),
   with_drawn (drawn w + 9) w).
Proof.
  unfold generate_fake_data, random_uniform, random_random, bind, ret,
    fake_observation, final_base_pollution.
  cbn [drawn with_drawn random].
  replace (drawn w + 1)%nat with (S (drawn w)) by lia.
  replace (drawn w + 2)%nat with (S (S (drawn w))) by lia.
  replace (drawn w + 3)%nat with (S (S (S (drawn w)))) by lia.
  replace (drawn w + 4)%nat with (S (S (S (S (drawn w))))) by lia.
  replace (drawn w + 5)%nat with (S (S (S (S (S (drawn w)))))) by lia.
  replace (drawn w + 6)%nat with (S (S (S (S (S (S (drawn w))))))) by lia.
  replace (drawn w + 7)%nat with (S (S (S (S (S (S (S (drawn w)))))))) by lia.
  replace (drawn w + 8)%nat with (S (S (S (S (S (S (S (S (drawn w))))))))) by lia.
  replace (drawn w + 9)%nat with (S (S (S (S (S (S (S (S (S (drawn w)))))))))) by lia.
  reflexivity.
Qed.



(** *** The bulk generator *)

(** One turn of the [while current_time <= end_time] loop. *)
Lemma bulk_step_eq (lat lon : Q) (current_time : Z) (l : list value)
  (w : world) :
  bulk_step E lat lon current_time l w =
  (Ok (l ++ [fake_observation E lat lon current_time (random w) (drawn w)]),
   with_drawn (drawn w + 9) w).
Proof.
  unfold bulk_step, bind. rewrite generate_fake_data_eq. reflexivity.
Qed.

Lemma with_drawn_same (w : world) : with_drawn (drawn w + 0) w = w.
Proof. destruct w. unfold with_drawn. cbn. f_equal. lia. Qed.

Lemma with_drawn_twice (n m : nat) (w : world) :
  with_drawn m (with_drawn n w) = with_drawn m w.
Proof. reflexivity. Qed.

Lemma hours_succ (a b : Z) :
  (a <= b)%Z ->
  Z.to_nat ((b - a) / 3600 + 1)
  = S (if Z_le_dec (a + 3600) b then Z.to_nat ((b - (a + 3600)) / 3600 + 1)
       else 0%nat).
Proof.
  intro H. destruct (Z_le_dec (a + 3600) b) as [Hle | Hgt].
  - replace (b - a)%Z with ((b - (a + 3600)) + 1 * 3600)%Z by lia.
    rewrite Z.div_add by lia.
    assert (0 <= (b - (a + 3600)) / 3600)%Z by (apply Z.div_pos; lia).
    lia.
  - rewrite Z.div_small by lia. reflexivity.
Qed.

(** The loop appends one observation per hour, [n] of them. *)
Lemma bulk_loop_eq (lat lon : Q) (end_time : Z) (n : nat) :
  forall (current_time : Z) (l : list value) (w : world),
    n = (if Z_le_dec current_time end_time
         then Z.to_nat ((end_time - current_time) / 3600 + 1) else 0%nat) ->
    bulk_loop E lat lon end_time current_time l w =
    (Ok (l ++ map (fun i => fake_observation E lat lon
                              (current_time + 3600 * Z.of_nat i)
                              (random w) (drawn w + 9 * i))
                  (seq 0 n)),
     with_drawn (drawn w + 9 * n) w).
Proof.
  induction n as [|n IH]; intros current_time l w Hn.
  - rewrite bulk_loop_equation_1.
    destruct (Z_le_dec current_time end_time) as [Hle | Hgt]; cbn.
    + exfalso.
      assert (0 <= (end_time - current_time) / 3600)%Z by (apply Z.div_pos; lia).
      lia.
    + rewrite app_nil_r. rewrite with_drawn_same. reflexivity.
  - rewrite bulk_loop_equation_1.
    destruct (Z_le_dec current_time end_time) as [Hle | Hgt]; [|discriminate].
    unfold bulk_loop_unfold_clause_1. rewrite bulk_step_eq.
    unfold bulk_loop_unfold_clause_1_clause_1.
    rewrite (hours_succ _ _ Hle) in Hn. injection Hn as Hn.
    rewrite (IH _ _ _ Hn). cbn [random drawn with_drawn].
    f_equal.
    + rewrite <- app_assoc. do 2 apply f_equal. cbn [app map seq].
      replace (current_time + 3600 * Z.of_nat 0)%Z with current_time by lia.
      replace (drawn w + 9 * 0)%nat with (drawn w) by lia.
      apply f_equal.
      rewrite <- seq_shift, map_map. apply map_ext. intro i.
      f_equal; lia.
    + unfold with_drawn. cbn. f_equal. lia.
Qed.

Lemma dt_of_fake_observation (lat lon : Q) (t : Z) (r : nat -> Q) (p : nat) :
  dt_of (fake_observation E lat lon t r p) = Some t.
Proof. reflexivity. Qed.


End Generator.



Section Store.

Variable E : env.

(** *** Sorting *)

Lemma insert_by_timestamp_perm (r : Sql.row) (l : list Sql.row) :
  Permutation (Sql.insert_by_timestamp r l) (r :: l).
Proof.
  induction l as [|x l IH]; cbn; [reflexivity|].
  destruct (Sql.sql_leb _ _); [reflexivity|].
  rewrite IH. apply perm_swap.
Qed.

Lemma order_by_timestamp_perm (l : list Sql.row) :
  Permutation (Sql.order_by_timestamp l) l.
Proof.
  induction l as [|x l IH]; cbn; [reflexivity|].
  rewrite insert_by_timestamp_perm. now rewrite IH.
Qed.





(** *** The WHERE clause *)

Lemma between_spec (v : Sql.sqlval) (lo hi : Q) :
  Sql.between v lo hi = true <->
  exists x, Sql.num_of v = Some x /\ lo <= x <= hi.
Proof.
  unfold Sql.between. destruct (Sql.num_of v) as [x|].
  - rewrite andb_true_iff, !Qle_bool_iff. split.
    + intro H. now exists x.
    + intros (y & Hy & H). now injection Hy as <-.
  - split; [discriminate|]. now intros (x & Hx & _).
Qed.

Lemma in_range_spec (lat lon : Q) (start_time end_time : Z) (r : Sql.row) :
  Sql.in_range (lat - 0.1) (lat + 0.1) (lon - 0.1) (lon + 0.1)
               start_time end_time r = true
  <-> within_range lat lon start_time end_time r.
Proof.
  unfold Sql.in_range, within_range.
  rewrite !andb_true_iff, !between_spec. split.
  - intros [[(la & Hla & H1) (lo & Hlo & H2)] (t & Ht & H3)].
    now exists la, lo, t.
  - intros (la & lo & t & Hla & Hlo & Ht & H1 & H2 & H3).
    repeat split; eauto.
Qed.


Lemma query_body_no_fault (lat lon : Q) (start_time end_time : Z) (w : world) :
  db_fault w = NoFault ->
  query_body lat lon start_time end_time w
  = (Ok (Sql.select_range (store w) (lat - 0.1) (lat + 0.1)
                          (lon - 0.1) (lon + 0.1) start_time end_time), w).
Proof.
  intro H. unfold query_body, bind, connect, execute_fault.
  rewrite H. cbn. rewrite H. reflexivity.
Qed.


End Store.


Section Insert.

Variable E : env.

Lemma lift_ok {A} (r : result A) (a : A) (w w' : world) :
  lift r w = (Ok a, w') -> r = Ok a /\ w' = w.
Proof. unfold lift. intro H. injection H as -> ->. now split. Qed.

(** Splits [H : bind m k w = (Ok _, _)] into the run of [m] and the rest. *)
Ltac bind_ok H a w1 Hm :=
  unfold bind at 1 in H;
  match type of H with
  | match ?m ?w with _ => _ end = _ =>
      destruct (m w) as [[a | ?] w1] eqn:Hm; [| discriminate H]
  end.

(** Same, for a [lift]ed result: names the equation of the result. *)
Ltac lift_ok H a Hr :=
  let w1 := fresh "w" in
  let Hm := fresh "Hm" in
  bind_ok H a w1 Hm;
  apply lift_ok in Hm as [Hr ->].

Lemma component_ok (item : value) (k : string) (v : value) (w w' : world) :
  component item k w = (Ok v, w') -> v = pollutant item k /\ w' = w.
Proof.
  unfold component. intro H.
  lift_ok H c Hc. apply lift_ok in H as [H ->]. split; [|reflexivity].
  unfold pollutant. rewrite Hc.
  destruct c; try discriminate. cbn in H. now injection H as <-.
Qed.

Lemma bind_params_ok (dt lat lon aqi pm2_5 pm10 co no no2 o3 so2 nh3
  location_name source : value) (p : Sql.params) (w w' : world) :
  bind_params dt lat lon aqi pm2_5 pm10 co no no2 o3 so2 nh3
              location_name source w = (Ok p, w') ->
  w' = w
  /\ Sql.bind dt = Ok (Sql.p_timestamp p)
  /\ Sql.bind lat = Ok (Sql.p_latitude p)
  /\ Sql.bind lon = Ok (Sql.p_longitude p)
  /\ Sql.bind aqi = Ok (Sql.p_aqi p)
  /\ Sql.bind pm2_5 = Ok (Sql.p_pm2_5 p)
  /\ Sql.bind pm10 = Ok (Sql.p_pm10 p)
  /\ Sql.bind co = Ok (Sql.p_co p)
  /\ Sql.bind no = Ok (Sql.p_no p)
  /\ Sql.bind no2 = Ok (Sql.p_no2 p)
  /\ Sql.bind o3 = Ok (Sql.p_o3 p)
  /\ Sql.bind so2 = Ok (Sql.p_so2 p)
  /\ Sql.bind nh3 = Ok (Sql.p_nh3 p)
  /\ Sql.bind location_name = Ok (Sql.p_location_name p)
  /\ Sql.bind source = Ok (Sql.p_source p).
Proof.
  unfold bind_params. intro H.
  lift_ok H x1 H1. lift_ok H x2 H2. lift_ok H x3 H3. lift_ok H x4 H4.
  lift_ok H x5 H5. lift_ok H x6 H6. lift_ok H x7 H7. lift_ok H x8 H8.
  lift_ok H x9 H9. lift_ok H x10 H10. lift_ok H x11 H11. lift_ok H x12 H12.
  lift_ok H x13 H13. lift_ok H x14 H14.
  unfold ret in H. injection H as <- <-. cbn. tauto.
Qed.

Lemma execute_insert_ok (n : nat) (pending : list Sql.row) (p : Sql.params)
  (r : Sql.row) (w w' : world) :
  execute_insert E n pending p w = (Ok r, w') ->
  w' = w
  /\ Sql.insert (sqlite_casts E) (clock w) (store w ++ pending) p = Ok r.
Proof.
  unfold execute_insert, bind, execute_fault. intro H.
  destruct (db_fault w) as [| |k|]; try (injection H as -> ->; now split).
  destruct (Nat.eqb k n); [discriminate|]. injection H as -> ->. now split.
Qed.

Lemma insert_columns (c : Sql.casts) (now : Z) (visible : list Sql.row)
  (p : Sql.params) (r : Sql.row) :
  Sql.insert c now visible p = Ok r ->
  Sql.timestamp r = Sql.apply_affinity c Sql.AffInteger (Sql.p_timestamp p)
  /\ Sql.latitude r = Sql.apply_affinity c Sql.AffReal (Sql.p_latitude p)
  /\ Sql.longitude r = Sql.apply_affinity c Sql.AffReal (Sql.p_longitude p)
  /\ Sql.aqi r = Sql.apply_affinity c Sql.AffInteger (Sql.p_aqi p)
  /\ Sql.pm2_5 r = Sql.apply_affinity c Sql.AffReal (Sql.p_pm2_5 p)
  /\ Sql.pm10 r = Sql.apply_affinity c Sql.AffReal (Sql.p_pm10 p)
  /\ Sql.co r = Sql.apply_affinity c Sql.AffReal (Sql.p_co p)
  /\ Sql.no r = Sql.apply_affinity c Sql.AffReal (Sql.p_no p)
  /\ Sql.no2 r = Sql.apply_affinity c Sql.AffReal (Sql.p_no2 p)
  /\ Sql.o3 r = Sql.apply_affinity c Sql.AffReal (Sql.p_o3 p)
  /\ Sql.so2 r = Sql.apply_affinity c Sql.AffReal (Sql.p_so2 p)
  /\ Sql.nh3 r = Sql.apply_affinity c Sql.AffReal (Sql.p_nh3 p)
  /\ Sql.location_name r
     = Sql.apply_affinity c Sql.AffText (Sql.p_location_name p)
  /\ Sql.source r = Sql.apply_affinity c Sql.AffText (Sql.p_source p).
Proof.
  unfold Sql.insert. cbn [Sql.timestamp Sql.latitude Sql.longitude Sql.aqi Sql.source].
  destruct (_ || _); [discriminate|].
  intro H. injection H as <-. cbn. tauto.
Qed.

Lemma bind_reads {A B} (m : M A) (k : A -> M B) :
  (forall w, snd (m w) = w) -> (forall a w, snd (k a w) = w) ->
  forall w, snd (bind m k w) = w.
Proof.
  intros Hm Hk w. unfold bind. specialize (Hm w).
  destruct (m w) as [[a | e] w1]; cbn in Hm; subst w1; [apply Hk | reflexivity].
Qed.

Lemma lift_reads {A} (r : result A) (w : world) : snd (lift r w) = w.
Proof. reflexivity. Qed.

Lemma component_reads (item : value) (k : string) (w : world) :
  snd (component item k w) = w.
Proof.
  unfold component. apply bind_reads; intros; apply lift_reads.
Qed.

Lemma bind_params_reads (dt lat lon aqi pm2_5 pm10 co no no2 o3 so2 nh3
  location_name source : value) (w : world) :
  snd (bind_params dt lat lon aqi pm2_5 pm10 co no no2 o3 so2 nh3
                   location_name source w) = w.
Proof.
  unfold bind_params.
  repeat (apply bind_reads; [intro; apply lift_reads | intros ? ?]).
  reflexivity.
Qed.

Lemma execute_insert_reads (n : nat) (pending : list Sql.row)
  (p : Sql.params) (w : world) :
  snd (execute_insert E n pending p w) = w.
Proof.
  unfold execute_insert. apply bind_reads; [|reflexivity].
  intro w0. unfold execute_fault.
  destruct (db_fault w0) as [| |k|]; try reflexivity.
  now destruct (Nat.eqb k n).
Qed.

(** The loop only reads the world. *)
Lemma save_items_reads (data lat lon location_name : value)
  (items : list value) :
  forall (pending : list Sql.row) (n : nat) (w : world),
    snd (save_items E data lat lon location_name items pending n w) = w.
Proof.
  induction items as [|item items IH]; intros pending n w; [reflexivity|].
  cbn [save_items].
  do 3 (apply bind_reads; [intro; apply lift_reads | intros ? ?]).
  do 8 (apply bind_reads; [intro; apply component_reads | intros ? ?]).
  apply bind_reads; [intro; apply lift_reads | intros ? ?].
  apply bind_reads; [intro; apply bind_params_reads | intros ? ?].
  apply bind_reads; [intro; apply execute_insert_reads | intros ? ?].
  apply IH.
Qed.

(** Every row the loop of [save_to_database] adds comes from its item. *)
Lemma save_items_ok (data lat lon location_name : value)
  (items : list value) :
  forall (pending : list Sql.row) (n : nat) (w w' : world)
         (pending' : list Sql.row) (n' : nat),
    save_items E data lat lon location_name items pending n w
    = (Ok (pending', n'), w') ->
    w' = w
    /\ n' = (n + List.length items)%nat
    /\ exists new, pending' = pending ++ new
                   /\ Forall2 (row_of_item E data lat lon location_name)
                              items new.
Proof.
  induction items as [|item items IH]; intros pending n w w' pending' n' H.
  - cbn in H. unfold ret in H. injection H as <- <- <-.
    split; [reflexivity|]. split; [cbn; lia|].
    exists []. split; [now rewrite app_nil_r | constructor].
  - cbn [save_items] in H.
    lift_ok H dt Hdt. lift_ok H main Hmain. lift_ok H aqi Haqi.
    bind_ok H pm2_5 w1 H1. apply component_ok in H1 as [-> ->].
    bind_ok H pm10 w1 H1. apply component_ok in H1 as [-> ->].
    bind_ok H co w1 H1. apply component_ok in H1 as [-> ->].
    bind_ok H no w1 H1. apply component_ok in H1 as [-> ->].
    bind_ok H no2 w1 H1. apply component_ok in H1 as [-> ->].
    bind_ok H o3 w1 H1. apply component_ok in H1 as [-> ->].
    bind_ok H so2 w1 H1. apply component_ok in H1 as [-> ->].
    bind_ok H nh3 w1 H1. apply component_ok in H1 as [-> ->].
    lift_ok H source Hsource.
    bind_ok H p w1 Hp. apply bind_params_ok in Hp.
    destruct Hp as (-> & B1 & B2 & B3 & B4 & B5 & B6 & B7 & B8 & B9 & B10
                    & B11 & B12 & B13 & B14).
    bind_ok H r w1 Hr. apply execute_insert_ok in Hr as [-> Hr].
    apply insert_columns in Hr.
    destruct Hr as (C1 & C2 & C3 & C4 & C5 & C6 & C7 & C8 & C9 & C10
                    & C11 & C12 & C13 & C14).
    apply IH in H. destruct H as (-> & -> & new & -> & Hnew).
    split; [reflexivity|]. split; [cbn; lia|].
    exists (r :: new). split; [now rewrite <- app_assoc|].
    constructor; [|exact Hnew].
    assert (Hsrc : source = source_or_unknown data).
    { unfold source_or_unknown, source_of. destruct data; try discriminate.
      cbn in Hsource. injection Hsource as <-. reflexivity. }
    subst source.
    unfold row_of_item.
    split; [exists dt; split; [exact Hdt | now exists (Sql.p_timestamp p)]|].
    split; [now exists (Sql.p_latitude p)|].
    split; [now exists (Sql.p_longitude p)|].
    split; [exists main, aqi; repeat split; try assumption;
            now exists (Sql.p_aqi p)|].
    split; [now exists (Sql.p_pm2_5 p)|].
    split; [now exists (Sql.p_pm10 p)|].
    split; [now exists (Sql.p_co p)|].
    split; [now exists (Sql.p_no p)|].
    split; [now exists (Sql.p_no2 p)|].
    split; [now exists (Sql.p_o3 p)|].
    split; [now exists (Sql.p_so2 p)|].
    split; [now exists (Sql.p_nh3 p)|].
    split; [now exists (Sql.p_location_name p)|].
    now exists (Sql.p_source p).
Qed.

Lemma has_key_getitem (data : value) (k : string) :
  Py.has_key data k = true -> exists v, Py.getitem data k = Ok v.
Proof.
  destruct data; try discriminate. cbn.
  destruct (Py.lookup k d); [eauto | discriminate].
Qed.

Lemma with_log_nil (w : world) : with_log (log w ++ []) w = w.
Proof. destruct w. unfold with_log. cbn. now rewrite app_nil_r. Qed.

(** [H : bind (lift r) k w = (Raise _, _)]: either [r] raised, which
    [fin] must settle, or the run goes on. *)
Ltac lift_any H a Hr fin :=
  unfold bind at 1 in H; unfold lift at 1 in H;
  match type of H with
  | match ?r with _ => _ end = _ =>
      destruct r as [a | ?] eqn:Hr; [| injection H as <- <-; fin]
  end.

(** An exception inside [save_to_database] leaves only log entries. *)
Lemma save_body_raise (data : value) (name : option string) (w w' : world)
  (e : exn) :
  save_body E data name w = (Raise e, w') ->
  exists l, logged l w w'.
Proof.
  unfold save_body, logged. intro H.
  unfold bind at 1 in H. unfold connect at 1 in H.
  assert (H0 : exists l, w = with_log (log w ++ l) w)
    by (exists []; now rewrite with_log_nil).
  destruct (db_fault w) eqn:Hfault;
    try (injection H as <- <-; exact H0).
  all: unfold bind at 1, logger at 1 in H.
  all: set (w1 := with_log (log w ++ [PrintSaving (Py.of_option_str name)]) w)
         in H.
  all: assert (Hw1 : exists l, w1 = with_log (log w ++ l) w)
    by (now exists [PrintSaving (Py.of_option_str name)]).
  all: unfold bind at 1 in H.
  all: destruct ((if Py.is_dict data && Py.has_key data "location_name"
                  then lift (Py.getitem data "location_name")
                  else ret (Py.of_option_str name)) w1)
         as [[location_name | e0] w2] eqn:Hname.
  all: assert (Hw2 : w2 = w1)
    by (destruct (Py.is_dict data && Py.has_key data "location_name");
        now injection Hname as _ <-).
  all: subst w2.
  all: try (injection H as <- <-; exact Hw1).
  all: lift_any H raw_coord Hraw ltac:(exact Hw1).
  all: lift_any H lat Hlat ltac:(exact Hw1).
  all: lift_any H lon Hlon ltac:(exact Hw1).
  all: lift_any H l Hlist ltac:(exact Hw1).
  all: lift_any H items Hiter ltac:(exact Hw1).
  all: unfold bind at 1 in H.
  all: pose proof (save_items_reads data lat lon location_name items [] 0%nat w1)
         as Hreads.
  all: destruct (save_items E data lat lon location_name items [] 0 w1)
         as [[saved | e0] w2]; cbn in Hreads; subst w2.
  all: try (injection H as <- <-; exact Hw1).
  all: unfold bind at 1, commit in H.
  all: replace (db_fault w1) with (db_fault w) in H by reflexivity.
  all: rewrite Hfault in H.
  all: try discriminate H.
  all: injection H as <- <-; exact Hw1.
Qed.

(** A run of [save_to_database] without exception commits one row per
    item of the list. *)
Lemma save_body_ok (data : value) (name : option string) (w w' : world) :
  save_body E data name w = (Ok tt, w') ->
  exists location_name lat lon items new,
    w' = with_log (log w ++ [PrintSaving (Py.of_option_str name);
                             InfoSaved (List.length items)])
                  (with_store (store w ++ new) w)
    /\ Forall2 (row_of_item E data lat lon location_name) items new
    /\ (Py.has_key data "location_name" = true ->
        Py.getitem data "location_name" = Ok location_name)
    /\ (Py.has_key data "location_name" = false ->
        location_name = Py.of_option_str name)
    /\ (exists raw_coord,
          Py.get data "coord" (PDict []) = Ok raw_coord
          /\ if Py.is_dict raw_coord
             then Py.get raw_coord "lat" PNone = Ok lat
                  /\ Py.get raw_coord "lon" PNone = Ok lon
             else Py.getindex raw_coord 0 = Ok lat
                  /\ Py.getindex raw_coord 1 = Ok lon)
    /\ (exists l, Py.get data "list" (PList []) = Ok l
                  /\ Py.iter l = Ok items).
Proof.
  unfold save_body. intro H.
  bind_ok H u w0 Hconnect.
  assert (w0 = w /\ db_fault w <> FaultConnect) as [-> Hfault].
  { unfold connect in Hconnect. destruct (db_fault w); try discriminate;
      injection Hconnect as _ <-; split; congruence. }
  bind_ok H u2 w1 Hlog. unfold logger in Hlog. injection Hlog as _ <-.
  set (w1 := with_log (log w ++ [PrintSaving (Py.of_option_str name)]) w) in H.
  bind_ok H location_name w2 Hname.
  assert (w2 = w1) as ->
    by (destruct (Py.is_dict data && Py.has_key data "location_name");
        now injection Hname as _ <-).
  lift_ok H raw_coord Hraw. lift_ok H lat Hlat. lift_ok H lon Hlon.
  lift_ok H l Hlist. lift_ok H items Hiter.
  bind_ok H saved w2 Hsave. destruct saved as [pending n].
  apply save_items_ok in Hsave. destruct Hsave as (-> & -> & new & -> & Hnew).
  cbn [fst snd app plus] in H.
  bind_ok H u3 w2 Hcommit.
  assert (w2 = with_store (store w1 ++ new) w1) as ->.
  { unfold commit in Hcommit. destruct (db_fault w1); try discriminate;
      now injection Hcommit as _ <-. }
  unfold logger in H. injection H as <-.
  exists location_name, lat, lon, items, new.
  split; [unfold w1, with_log, with_store; cbn; now rewrite <- app_assoc|].
  split; [exact Hnew|].
  split; [|split; [|split]].
  - intro Hk. destruct data; try discriminate Hk.
    rewrite Hk in Hname. cbn [Py.is_dict andb] in Hname.
    now apply lift_ok in Hname as [? _].
  - intro Hk. rewrite Hk, andb_false_r in Hname.
    unfold ret in Hname. now injection Hname.
  - exists raw_coord. split; [exact Hraw|].
    destruct (Py.is_dict raw_coord); now split.
  - exists l. now split.
Qed.

Lemma save_to_database_total (data : value) (name : option string)
  (w : world) :
  exists w', save_to_database E data name w = (Ok tt, w').
Proof.
  unfold save_to_database, try_except.
  destruct (save_body E data name w) as [[[] | e] w1]; [now exists w1|].
  unfold logger. eauto.
Qed.

(** *** Well-formed envelopes are stored *)

Lemma bind_run {A B} (m : M A) (k : A -> M B) (w : world) (a : A)
  (w1 : world) :
  m w = (Ok a, w1) -> bind m k w = k a w1.
Proof. intro H. unfold bind. now rewrite H. Qed.

Lemma bind_lift_run {A B} (r : result A) (k : A -> M B) (w : world) (a : A) :
  r = Ok a -> bind (lift r) k w = k a w.
Proof. intros ->. reflexivity. Qed.

Lemma component_run (item : value) (k : string) (c : Py.dict) (w : world) :
  Py.getitem item "components" = Ok (PDict c) ->
  component item k w = (Ok (pollutant item k), w).
Proof.
  intro H. unfold component, pollutant.
  rewrite (bind_lift_run _ _ _ _ H), H. reflexivity.
Qed.

Lemma bind_params_run (dt lat lon aqi pm2_5 pm10 co no no2 o3 so2 nh3
  location_name source : value)
  (b1 b2 b3 b4 b5 b6 b7 b8 b9 b10 b11 b12 b13 b14 : Sql.sqlval) (w : world) :
  Sql.bind dt = Ok b1 -> Sql.bind lat = Ok b2 -> Sql.bind lon = Ok b3 ->
  Sql.bind aqi = Ok b4 -> Sql.bind pm2_5 = Ok b5 -> Sql.bind pm10 = Ok b6 ->
  Sql.bind co = Ok b7 -> Sql.bind no = Ok b8 -> Sql.bind no2 = Ok b9 ->
  Sql.bind o3 = Ok b10 -> Sql.bind so2 = Ok b11 -> Sql.bind nh3 = Ok b12 ->
  Sql.bind location_name = Ok b13 -> Sql.bind source = Ok b14 ->
  bind_params dt lat lon aqi pm2_5 pm10 co no no2 o3 so2 nh3
              location_name source w
  = (Ok {| Sql.p_timestamp := b1; Sql.p_latitude := b2; Sql.p_longitude := b3;
           Sql.p_aqi := b4; Sql.p_pm2_5 := b5; Sql.p_pm10 := b6;
           Sql.p_co := b7; Sql.p_no := b8; Sql.p_no2 := b9; Sql.p_o3 := b10;
           Sql.p_so2 := b11; Sql.p_nh3 := b12;
           Sql.p_location_name := b13; Sql.p_source := b14 |}, w).
Proof.
  intros H1 H2 H3 H4 H5 H6 H7 H8 H9 H10 H11 H12 H13 H14.
  unfold bind_params.
  rewrite (bind_lift_run _ _ _ _ H1), (bind_lift_run _ _ _ _ H2),
    (bind_lift_run _ _ _ _ H3), (bind_lift_run _ _ _ _ H4),
    (bind_lift_run _ _ _ _ H5), (bind_lift_run _ _ _ _ H6),
    (bind_lift_run _ _ _ _ H7), (bind_lift_run _ _ _ _ H8),
    (bind_lift_run _ _ _ _ H9), (bind_lift_run _ _ _ _ H10),
    (bind_lift_run _ _ _ _ H11), (bind_lift_run _ _ _ _ H12),
    (bind_lift_run _ _ _ _ H13), (bind_lift_run _ _ _ _ H14).
  reflexivity.
Qed.

Lemma bind_number (v : value) :
  is_number v = true ->
  exists b, Sql.bind v = Ok b
            /\ forall c a, Sql.is_null (Sql.apply_affinity c a b) = false.
Proof.
  destruct v; cbn [is_number]; intro H; try discriminate H; unfold Sql.bind.
  - unfold int64 in H. rewrite H. eexists. split; [reflexivity|].
    intros c []; reflexivity.
  - eexists. split; [reflexivity|].
    intros c []; cbn; try reflexivity. now destruct (Sql.integral q).
Qed.

Lemma bind_optional_number (v : value) :
  is_optional_number v = true -> exists b, Sql.bind v = Ok b.
Proof.
  destruct v; cbn [is_optional_number is_number]; intro H;
    try discriminate H; unfold Sql.bind; eauto.
  unfold int64 in H. rewrite H. eauto.
Qed.

Lemma insert_run (c : Sql.casts) (now : Z) (visible : list Sql.row)
  (p : Sql.params) :
  Sql.is_null (Sql.apply_affinity c Sql.AffInteger (Sql.p_timestamp p)) = false ->
  Sql.is_null (Sql.apply_affinity c Sql.AffReal (Sql.p_latitude p)) = false ->
  Sql.is_null (Sql.apply_affinity c Sql.AffReal (Sql.p_longitude p)) = false ->
  Sql.is_null (Sql.apply_affinity c Sql.AffInteger (Sql.p_aqi p)) = false ->
  Sql.is_null (Sql.apply_affinity c Sql.AffText (Sql.p_source p)) = false ->
  exists r, Sql.insert c now visible p = Ok r.
Proof.
  intros H1 H2 H3 H4 H5. unfold Sql.insert.
  cbn [Sql.timestamp Sql.latitude Sql.longitude Sql.aqi Sql.source].
  rewrite H1, H2, H3, H4, H5. cbn. eauto.
Qed.

(** On a working store the loop writes a row for every well-formed
    observation. *)
Lemma save_items_run (data lat lon location_name : value) (s : string)
  (w : world) (items : list value) :
  db_fault w = NoFault ->
  is_number lat = true -> is_number lon = true ->
  (location_name = PNone \/ exists n, location_name = PStr n) ->
  Py.get data "source" (PStr "unknown") = Ok (PStr s) ->
  forallb is_observation items = true ->
  forall (pending : list Sql.row) (n : nat),
  exists saved,
    save_items E data lat lon location_name items pending n w = (Ok saved, w).
Proof.
  intros Hfault Hlat Hlon Hname Hsource.
  destruct (bind_number _ Hlat) as (blat & Blat & Nlat).
  destruct (bind_number _ Hlon) as (blon & Blon & Nlon).
  assert (exists bname, Sql.bind location_name = Ok bname) as [bname Bname]
    by (destruct Hname as [-> | [m ->]]; cbn; eauto).
  induction items as [|item items IH]; intros Hitems pending n.
  - cbn. unfold ret. eauto.
  - cbn [forallb] in Hitems. apply andb_true_iff in Hitems as [Hitem Hitems].
    unfold is_observation in Hitem.
    destruct (Py.getitem item "dt") as [[| |t| | | |]|] eqn:Hdt;
      try discriminate Hitem.
    destruct (Py.getitem item "main") as [main|] eqn:Hmain;
      try discriminate Hitem.
    destruct (Py.getitem item "components") as [[| | | | | |c]|] eqn:Hcomp;
      try discriminate Hitem.
    apply andb_true_iff in Hitem as [Hitem Hpoll].
    apply andb_true_iff in Hitem as [Ht Haqi].
    destruct (Py.getitem main "aqi") as [[| |a| | | |]|] eqn:Ha;
      try discriminate Haqi.
    cbn [forallb pollutant_keys] in Hpoll.
    repeat (apply andb_true_iff in Hpoll as [?P Hpoll]).
    destruct (bind_optional_number _ P) as [b5 B5].
    destruct (bind_optional_number _ P0) as [b6 B6].
    destruct (bind_optional_number _ P1) as [b7 B7].
    destruct (bind_optional_number _ P2) as [b8 B8].
    destruct (bind_optional_number _ P3) as [b9 B9].
    destruct (bind_optional_number _ P4) as [b10 B10].
    destruct (bind_optional_number _ P5) as [b11 B11].
    destruct (bind_optional_number _ P6) as [b12 B12].
    assert (Bt : Sql.bind (PInt t) = Ok (Sql.SInt t))
      by (unfold Sql.bind; unfold int64 in Ht; now rewrite Ht).
    assert (Ba : Sql.bind (PInt a) = Ok (Sql.SInt a))
      by (unfold Sql.bind; unfold int64 in Haqi; now rewrite Haqi).
    cbn [save_items].
    rewrite (bind_lift_run _ _ _ _ Hdt), (bind_lift_run _ _ _ _ Hmain),
      (bind_lift_run _ _ _ _ Ha).
    do 8 (erewrite bind_run by (eapply component_run; exact Hcomp)).
    rewrite (bind_lift_run _ _ _ _ Hsource).
    erewrite bind_run
      by (eapply (bind_params_run _ _ _ _ _ _ _ _ _ _ _ _ _ _
                    _ _ _ _ _ _ _ _ _ _ _ _ _ _ w
                    Bt Blat Blon Ba B5 B6 B7 B8 B9 B10 B11 B12 Bname);
          reflexivity).
    match goal with
    | |- context [execute_insert E n pending ?p] =>
        destruct (insert_run (sqlite_casts E) (clock w) (store w ++ pending) p)
          as [r Hr]; try reflexivity; try apply Nlat; try apply Nlon
    end.
    erewrite bind_run.
    2:{ unfold execute_insert, bind, execute_fault. rewrite Hfault.
        rewrite Hr. reflexivity. }
    apply IH. exact Hitems.
Qed.

Lemma getitem_dict (data v : value) (k : string) :
  Py.getitem data k = Ok v ->
  exists d, data = PDict d /\ Py.lookup k d = Some v.
Proof.
  destruct data; try discriminate. cbn.
  destruct (Py.lookup k d) eqn:H; [|discriminate].
  intro Hv. injection Hv as <-. eauto.
Qed.

(** On a working store a well-formed envelope is saved whole: one row per
    observation, committed. *)
Lemma save_to_database_envelope (data : value) (name : option string)
  (w : world) :
  db_fault w = NoFault ->
  is_envelope data = true ->
  exists la lo new,
    envelope_coord data = Some (la, lo)
    /\ is_number la = true /\ is_number lo = true
    /\ save_to_database E data name w
       = (Ok tt,
          with_log (log w ++ [PrintSaving (Py.of_option_str name);
                              InfoSaved (List.length (observations data))])
                   (with_store (store w ++ new) w))
    /\ Forall2 (row_of_item E data la lo (effective_location_name data name))
               (observations data) new.
Proof.
  intros Hfault Henv. unfold is_envelope in Henv.
  destruct (envelope_coord data) as [[la lo]|] eqn:Hcoord; [|discriminate].
  destruct (Py.getitem data "list") as [[| | | | |items|]|] eqn:Hlist;
    try discriminate.
  apply andb_true_iff in Henv as [Henv Hloc].
  apply andb_true_iff in Henv as [Henv Hsrc].
  apply andb_true_iff in Henv as [Henv Hitems].
  apply andb_true_iff in Henv as [Hla Hlo].
  destruct (getitem_dict _ _ _ Hlist) as (d & -> & Hl).
  exists la, lo.
  (* the arguments the loop receives *)
  assert (Hname : (if Py.is_dict (PDict d) && Py.has_key (PDict d) "location_name"
                   then lift (Py.getitem (PDict d) "location_name")
                   else ret (Py.of_option_str name))
                  = ret (effective_location_name (PDict d) name)).
  { unfold effective_location_name, location_name_of. cbn.
    now destruct (Py.lookup "location_name" d). }
  assert (Hbindable : effective_location_name (PDict d) name = PNone
                      \/ exists n, effective_location_name (PDict d) name = PStr n).
  { unfold effective_location_name. unfold location_name_of in *.
    destruct (Py.lookup "location_name" d) as [[]|]; try discriminate; eauto.
    destruct name; cbn; eauto. }
  assert (Hsource : exists s, Py.get (PDict d) "source" (PStr "unknown")
                              = Ok (PStr s)).
  { unfold source_or_unknown, source_of in Hsrc. cbn.
    destruct (Py.lookup "source" d) as [[]|]; try discriminate; eauto. }
  destruct Hsource as [s Hsource].
  assert (Hraw : exists raw_coord,
            Py.get (PDict d) "coord" (PDict []) = Ok raw_coord
            /\ (if Py.is_dict raw_coord then Py.get raw_coord "lat" PNone
                else Py.getindex raw_coord 0) = Ok la
            /\ (if Py.is_dict raw_coord then Py.get raw_coord "lon" PNone
                else Py.getindex raw_coord 1) = Ok lo).
  { unfold envelope_coord in Hcoord. cbn in Hcoord |- *.
    destruct (Py.lookup "coord" d) as [raw|]; [|discriminate].
    exists raw. split; [reflexivity|].
    destruct raw as [| | | | | l | c]; try discriminate.
    - destruct l as [|x [|y [|z l]]]; try discriminate.
      injection Hcoord as <- <-. now split.
    - cbn. destruct (Py.lookup "lat" c), (Py.lookup "lon" c); try discriminate.
      injection Hcoord as <- <-. now split. }
  destruct Hraw as (raw_coord & Hraw & Hlat & Hlon).
  set (w1 := with_log (log w ++ [PrintSaving (Py.of_option_str name)]) w).
  destruct (save_items_run (PDict d) la lo
              (effective_location_name (PDict d) name) s w1 items
              Hfault Hla Hlo Hbindable Hsource Hitems [] 0%nat)
    as [[pending n] Hsaved].
  destruct (save_items_ok _ _ _ _ _ _ _ _ _ _ _ Hsaved)
    as (_ & -> & new & -> & Hnew).
  exists new.
  split; [reflexivity|]. split; [exact Hla|]. split; [exact Hlo|].
  assert (Hobs : observations (PDict d) = items)
    by (unfold observations; now rewrite Hlist).
  rewrite Hobs. split; [|exact Hnew].
  unfold save_to_database, try_except, save_body.
  erewrite bind_run by (unfold connect; now rewrite Hfault).
  erewrite bind_run by reflexivity. fold w1.
  rewrite Hname.
  erewrite bind_run by reflexivity.
  rewrite (bind_lift_run _ _ _ _ Hraw), (bind_lift_run _ _ _ _ Hlat),
    (bind_lift_run _ _ _ _ Hlon).
  erewrite bind_lift_run by (cbn; now rewrite Hl).
  erewrite bind_lift_run by reflexivity.
  rewrite (bind_run _ _ _ _ _ Hsaved).
  cbn [fst snd app plus].
  erewrite bind_run
    by (unfold commit; replace (db_fault w1) with (db_fault w) by reflexivity;
        now rewrite Hfault).
  unfold logger, w1, with_log, with_store. cbn.
  now rewrite <- app_assoc.
Qed.

End Insert.

Section RoundTrip.

Variable E : env.

Lemma stored_number (v : value) (x : Q) (s : Sql.sqlval) :
  is_number v = true -> to_float v = Ok x ->
  stored_as E Sql.AffReal v s -> s = Sql.SReal x.
Proof.
  intros Hn Hx (b & Hb & ->).
  destruct v; try discriminate; cbn [is_number] in Hn; unfold Sql.bind in Hb.
  - unfold int64 in Hn. rewrite Hn in Hb. injection Hb as <-.
    cbn in Hx. now injection Hx as <-.
  - injection Hb as <-. cbn in Hx. now injection Hx as <-.
Qed.

Lemma stored_optional_number (v : value) (s : Sql.sqlval) :
  is_optional_number v = true ->
  stored_as E Sql.AffReal v s -> s = stored_real v.
Proof.
  intros Hn (b & Hb & ->).
  destruct v; try discriminate; cbn [is_optional_number is_number] in Hn;
    unfold Sql.bind in Hb.
  - now injection Hb as <-.
  - unfold int64 in Hn. rewrite Hn in Hb. now injection Hb as <-.
  - now injection Hb as <-.
Qed.

Lemma stored_int (t : Z) (s : Sql.sqlval) :
  int64 t = true -> stored_as E Sql.AffInteger (PInt t) s -> s = Sql.SInt t.
Proof.
  intros Ht (b & Hb & ->). unfold Sql.bind in Hb. unfold int64 in Ht.
  rewrite Ht in Hb. now injection Hb as <-.
Qed.

(** The row written for a well-formed observation carries its values. *)
Lemma row_of_observation (data la lo location_name obs : value)
  (r : Sql.row) :
  is_observation obs = true ->
  row_of_item E data la lo location_name obs r ->
  matches_observation obs r.
Proof.
  intros Hobs Hrow. unfold is_observation in Hobs.
  destruct Hrow as ((dt & Hdt & Sdt) & _ & _ & _ & S1 & S2 & S3 & S4 & S5
                    & S6 & S7 & S8 & _).
  rewrite Hdt in Hobs.
  destruct dt as [| |t| | | |]; try discriminate Hobs.
  destruct (Py.getitem obs "main") as [main|]; try discriminate Hobs.
  destruct (Py.getitem obs "components") as [[| | | | | |c]|];
    try discriminate Hobs.
  apply andb_true_iff in Hobs as [Hobs Hpoll].
  apply andb_true_iff in Hobs as [Ht _].
  cbn [forallb pollutant_keys] in Hpoll.
  repeat (apply andb_true_iff in Hpoll as [?P Hpoll]).
  unfold matches_observation.
  split; [exists t; split; [unfold dt_of; now rewrite Hdt
                           | now apply stored_int]|].
  repeat split; now apply stored_optional_number.
Qed.

Lemma rows_of_observations (data la lo location_name : value)
  (items : list value) (new : list Sql.row) :
  forallb is_observation items = true ->
  Forall2 (row_of_item E data la lo location_name) items new ->
  Forall2 matches_observation items new.
Proof.
  intros Hitems H. induction H as [|obs r items new Hrow _ IH]; [constructor|].
  cbn in Hitems. apply andb_true_iff in Hitems as [Hobs Hitems].
  constructor; [now apply (row_of_observation data la lo location_name) | now apply IH].
Qed.

Lemma filter_all {A} (f : A -> bool) (l : list A) :
  Forall (fun x => f x = true) l -> filter f l = l.
Proof.
  induction 1 as [|x l Hx _ IH]; cbn; [reflexivity|]. now rewrite Hx, IH.
Qed.

(** The rows written for an envelope lie in the box around its coordinates
    and in every time range that covers its observations. *)
Lemma rows_in_range (data la lo location_name : value) (lat lon : Q)
  (start_time end_time : Z) (items : list value) (new : list Sql.row) :
  is_number la = true -> is_number lo = true ->
  to_float la = Ok lat -> to_float lo = Ok lon ->
  (forall obs t, In obs items -> dt_of obs = Some t ->
                 (start_time <= t <= end_time)%Z) ->
  Forall2 matches_observation items new ->
  Forall2 (row_of_item E data la lo location_name) items new ->
  Forall (fun r => Sql.in_range (lat - 0.1) (lat + 0.1) (lon - 0.1) (lon + 0.1)
                                start_time end_time r = true) new.
Proof.
  intros Hla Hlo Hlat Hlon Hrange Hm Hrows.
  induction Hm as [|obs r items new Hobs _ IH]; [constructor|].
  inversion Hrows as [|? ? ? ? Hrow Hrows']; subst.
  constructor.
  - apply in_range_spec.
    destruct Hobs as ((t & Hdt & Ht) & _).
    destruct Hrow as (_ & Slat & Slon & _).
    apply (stored_number _ _ _ Hla Hlat) in Slat.
    apply (stored_number _ _ _ Hlo Hlon) in Slon.
    exists lat, lon, (inject_Z t). rewrite Slat, Slon, Ht. cbn.
    repeat split; try lra.
    + rewrite <- Zle_Qle. apply (Hrange obs t); [now left | exact Hdt].
    + rewrite <- Zle_Qle. apply (Hrange obs t); [now left | exact Hdt].
  - apply IH; [|exact Hrows'].
    intros obs' t' Hin. apply Hrange. now right.
Qed.


End RoundTrip.



Section StoreBoundary.

Variable E : env.

Lemma Forall2_in_r {A B} (R : A -> B -> Prop) (l : list A) (l' : list B)
  (b : B) :
  Forall2 R l l' -> In b l' -> exists a, In a l /\ R a b.
Proof.
  induction 1 as [|x y l l' Hxy _ IH]; intros Hin; [contradiction|].
  destruct Hin as [<- | Hin].
  - exists x. split; [now left | exact Hxy].
  - destruct (IH Hin) as (a & Ha & Hab). exists a. split; [now right | exact Hab].
Qed.

(** What [save_to_database] leaves behind, whatever it was given: the old
    rows, then one new row per item if the whole batch went through and
    none otherwise. *)
Lemma save_to_database_rows (data : value) (name : option string)
  (w : world) :
  exists w' new,
    save_to_database E data name w = (Ok tt, w')
    /\ store w' = store w ++ new
    /\ (forall r, In r new ->
          exists location_name lat lon item,
            row_of_item E data lat lon location_name item r
            /\ (Py.has_key data "location_name" = true ->
                Py.getitem data "location_name" = Ok location_name)
            /\ (exists raw_coord,
                  Py.get data "coord" (PDict []) = Ok raw_coord
                  /\ if Py.is_dict raw_coord
                     then Py.get raw_coord "lat" PNone = Ok lat
                          /\ Py.get raw_coord "lon" PNone = Ok lon
                     else Py.getindex raw_coord 0 = Ok lat
                          /\ Py.getindex raw_coord 1 = Ok lon))
    /\ (forall l, Py.get data "list" (PList []) = Ok l ->
                  Py.iter l = Ok [] -> new = []).
Proof.
  unfold save_to_database, try_except.
  destruct (save_body E data name w) as [[[] | e] w1] eqn:Hbody.
  - destruct (save_body_ok E _ _ _ _ Hbody)
      as (location_name & lat & lon & items & new & -> & Hrows & Hk & _
          & Hcoord & l & Hl & Hiter).
    exists (with_log (log w ++ [PrintSaving (Py.of_option_str name);
                                InfoSaved (List.length items)])
                     (with_store (store w ++ new) w)), new.
    split; [reflexivity|]. split; [reflexivity|]. split.
    + intros r Hr. destruct (Forall2_in_r _ _ _ _ Hrows Hr) as (item & _ & Hitem).
      exists location_name, lat, lon, item.
      split; [exact Hitem|]. split; [exact Hk | exact Hcoord].
    + intros l' Hl' Hiter'. rewrite Hl in Hl'. injection Hl' as <-.
      rewrite Hiter in Hiter'. injection Hiter' as ->.
      now inversion Hrows.
  - destruct (save_body_raise E _ _ _ _ _ Hbody) as [l ->].
    eexists _, []. split; [reflexivity|].
    split; [cbn; now rewrite app_nil_r|].
    split; [intros r []|reflexivity].
Qed.

(** C8: whatever they are given, and whatever storage failure they meet,
    the two Store operations return without raising; an exception inside
    the insert leaves the table as it was, and one inside the range query
    gives the empty list. *)
Theorem store_never_raises (data : value) (name : option string)
  (lat lon : Q) (start_time end_time : Z) (w : world) :
  (exists w',
     save_to_database E data name w = (Ok tt, w')
     /\ forall e w1, save_body E data name w = (Raise e, w1) ->
                     store w' = store w /\ exists l, logged l w w')
  /\ (exists rows w',
        get_historical_from_db lat lon start_time end_time w = (Ok rows, w')
        /\ store w' = store w
        /\ forall e w1,
             query_body lat lon start_time end_time w = (Raise e, w1) ->
             rows = [] /\ exists l, logged l w w').
Proof.
  split.
  - unfold save_to_database, try_except.
    destruct (save_body E data name w) as [[[] | e] w1] eqn:Hbody.
    + exists w1. split; [reflexivity|]. intros e w2 H. discriminate H.
    + destruct (save_body_raise E _ _ _ _ _ Hbody) as [l ->].
      eexists. split; [reflexivity|]. intros _ _ _.
      split; [reflexivity|].
      exists (l ++ [ErrorDbSave e]). unfold logged, with_log. cbn.
      now rewrite <- app_assoc.
  - unfold get_historical_from_db, try_except, query_body, bind, connect,
      execute_fault.
    destruct (db_fault w) as [| |k|] eqn:Hfault; cbn; rewrite ?Hfault.
    + eexists _, _. split; [reflexivity|]. split; [reflexivity|].
      intros e w1 H. discriminate H.
    + eexists _, _. split; [reflexivity|]. split; [reflexivity|].
      intros _ _ _. split; [reflexivity|]. now exists [ErrorDbQuery OperationalError].
    + destruct k; cbn.
      * eexists _, _. split; [reflexivity|]. split; [reflexivity|].
        intros _ _ _. split; [reflexivity|].
        now exists [ErrorDbQuery OperationalError].
      * eexists _, _. split; [reflexivity|]. split; [reflexivity|].
        intros e w1 H. discriminate H.
    + eexists _, _. split; [reflexivity|]. split; [reflexivity|].
      intros e w1 H. discriminate H.
Qed.

(** C10: every row an insert writes has in its source column the
    envelope's top-level "source" field when there is one, and the text
    "unknown" otherwise; "unknown" is none of the three source tags of the
    data model. *)
Theorem saved_rows_source (data : value) (name : option string) (w : world) :
  (exists w' new,
     save_to_database E data name w = (Ok tt, w')
     /\ store w' = store w ++ new
     /\ forall r, In r new ->
          stored_as E Sql.AffText (source_or_unknown data) (Sql.source r)
          /\ (forall s, source_of data = Some (PStr s) ->
                        Sql.source r = Sql.SText s)
          /\ (source_of data = None -> Sql.source r = Sql.SText "unknown"))
  /\ ~ In "unknown" source_tags.
Proof.
  split.
  - destruct (save_to_database_rows data name w)
      as (w' & new & Hsave & Hstore & Hrows & _).
    exists w', new. split; [exact Hsave|]. split; [exact Hstore|].
    intros r Hr.
    destruct (Hrows r Hr) as (location_name & lat & lon & item & Hrow & _).
    assert (Hsrc : stored_as E Sql.AffText (source_or_unknown data)
                             (Sql.source r)) by apply Hrow.
    split; [exact Hsrc|]. unfold source_or_unknown in Hsrc.
    split.
    + intros s Hs. rewrite Hs in Hsrc. destruct Hsrc as (b & Hb & ->).
      now injection Hb as <-.
    + intros Hs. rewrite Hs in Hsrc. destruct Hsrc as (b & Hb & ->).
      now injection Hb as <-.
  - cbn. intros [H | [H | [H | []]]]; discriminate H.
Qed.


End StoreBoundary.


Section Acquisition.

Variable E : env.

(** *** Dictionaries *)

Lemma lookup_assign_eq (k : string) (v : value) (d : Py.dict) :
  Py.lookup k (Py.assign k v d) = Some v.
Proof.
  induction d as [|[k' v'] d IH]; cbn.
  - now rewrite String.eqb_refl.
  - destruct (String.eqb k k') eqn:Hk; cbn; rewrite ?String.eqb_refl, ?Hk;
      [reflexivity | exact IH].
Qed.

Lemma lookup_assign_neq (k k' : string) (v : value) (d : Py.dict) :
  k <> k' -> Py.lookup k (Py.assign k' v d) = Py.lookup k d.
Proof.
  intro Hne. induction d as [|[k'' v''] d IH]; cbn.
  - destruct (String.eqb k k') eqn:Hk; [|reflexivity].
    apply String.eqb_eq in Hk. contradiction.
  - destruct (String.eqb k' k'') eqn:Hk'; cbn.
    + apply String.eqb_eq in Hk'. subst k''.
      destruct (String.eqb k k') eqn:Hk; [|reflexivity].
      apply String.eqb_eq in Hk. contradiction.
    + now rewrite IH.
Qed.

(** *** The upstream provider *)

Lemma fetch_upstream_world (rq : http_request) (w w' : world)
  (r : result value) :
  fetch_upstream rq w = (r, w') -> w' = with_sent (sent w ++ [rq]) w.
Proof.
  unfold fetch_upstream, bind, requests_get, raise_for_status, response_json.
  destruct (upstream w (List.length (sent w))) as [|status [body|]];
    cbn; unfold lift, ret.
  - now intros [= _ <-].
  - destruct ((400 <=? status)%Z && (status <? 600)%Z); cbn.
    + now intros [= _ <-].
    + destruct (Py.setitem body "source" (PStr "OpenWeatherMap API"));
        now intros [= _ <-].
  - destruct ((400 <=? status)%Z && (status <? 600)%Z); cbn;
      now intros [= _ <-].
Qed.

Lemma fetch_upstream_ok (rq : http_request) (w w' : world) (data : value) :
  fetch_upstream rq w = (Ok data, w') ->
  Py.truthy data = true /\ Py.is_dict data = true.
Proof.
  unfold fetch_upstream, bind, requests_get, raise_for_status, response_json.
  destruct (upstream w (List.length (sent w))) as [|status [body|]];
    cbn; unfold lift, ret; try discriminate.
  - destruct ((400 <=? status)%Z && (status <? 600)%Z); cbn; try discriminate.
    destruct body; unfold Py.setitem; try discriminate.
    intros [= <- _]. split; [|reflexivity].
    unfold Py.truthy. destruct d as [|[k v] d]; [reflexivity|].
    cbn [Py.assign]. now destruct (String.eqb "source" k).
  - destruct ((400 <=? status)%Z && (status <? 600)%Z); cbn; discriminate.
Qed.

(** The bulk generator always returns an envelope, and touches neither
    the Store nor the network. *)
Lemma generate_bulk_historical_data_total (lat lon : Q)
  (start_time end_time : Z) (w : world) :
  exists envelope w',
    generate_bulk_historical_data E lat lon start_time end_time w
    = (Ok envelope, w')
    /\ Py.truthy envelope = true /\ Py.is_dict envelope = true
    /\ store w' = store w /\ db_fault w' = db_fault w /\ sent w' = sent w
    /\ clock w' = clock w.
Proof.
  unfold generate_bulk_historical_data, bind.
  rewrite (bulk_loop_eq E lat lon end_time _ start_time [] w eq_refl).
  cbn. eexists _, _. split; [reflexivity|]. now repeat split.
Qed.


End Acquisition.


Section Fallback.

Variable E : env.

(** *** The location resolver *)




(** *** The sample file *)

Lemma tag_fallback_dict (location_name : option string) (d : Py.dict)
  (w : world) :
  tag_fallback location_name (PDict d) w = (Ok (tagged location_name d), w).
Proof.
  unfold tag_fallback, tagged, bind.
  now destruct (Py.truthy (Py.of_option_str location_name)).
Qed.




Lemma tagged_source (location_name : option string) (d : Py.dict) :
  source_of (tagged location_name d) = Some (PStr "Synthetic Fallback").
Proof. unfold tagged, source_of. apply lookup_assign_eq. Qed.





End Fallback.


Section Backfill.

Variable E : env.

(** What [save_to_database] does to the world: rows are appended and the
    log grows; nothing else changes. *)
Lemma save_to_database_world (data : value) (name : option string)
  (w : world) :
  exists new l,
    save_to_database E data name w
    = (Ok tt, with_log (log w ++ l) (with_store (store w ++ new) w)).
Proof.
  unfold save_to_database, try_except.
  destruct (save_body E data name w) as [[[] | e] w1] eqn:Hbody.
  - destruct (save_body_ok E _ _ _ _ Hbody)
      as (_ & _ & _ & items & new & -> & _).
    now exists new, [PrintSaving (Py.of_option_str name);
                     InfoSaved (List.length items)].
  - destruct (save_body_raise E _ _ _ _ _ Hbody) as [l ->].
    exists [], (l ++ [ErrorDbSave e]). unfold logger, with_log, with_store.
    cbn. now rewrite app_nil_r, <- app_assoc.
Qed.

Lemma get_historical_from_db_total (lat lon : Q) (start_time end_time : Z)
  (w : world) :
  exists rows l,
    get_historical_from_db lat lon start_time end_time w
    = (Ok rows, with_log (log w ++ l) w).
Proof.
  unfold get_historical_from_db, try_except.
  destruct (query_body lat lon start_time end_time w) as [[rows | e] w1] eqn:H.
  - exists rows, []. rewrite with_log_nil. f_equal.
    unfold query_body, bind, connect, execute_fault in H.
    destruct (db_fault w) as [| |[|k]|] eqn:Hf; cbn in H; rewrite ?Hf in H;
      try discriminate H; now injection H as _ <-.
  - exists [], [ErrorDbQuery e].
    unfold query_body, bind, connect, execute_fault in H.
    destruct (db_fault w) as [| |[|k]|] eqn:Hf; cbn in H; rewrite ?Hf in H;
      try discriminate H; now injection H as _ <-.
Qed.

(** The Historical acquisition always returns a non-empty dictionary,
    after exactly one upstream request, without touching the Store. *)
Lemma fetch_historical_aqi_total (lat lon : Q) (start_time end_time : Z)
  (w : world) :
  exists data w',
    fetch_historical_aqi E lat lon start_time end_time w = (Ok data, w')
    /\ Py.truthy data = true /\ Py.is_dict data = true
    /\ sent w' = sent w ++ [GetHistory lat lon start_time end_time]
    /\ store w' = store w /\ db_fault w' = db_fault w.
Proof.
  unfold fetch_historical_aqi, try_except.
  destruct (fetch_upstream (GetHistory lat lon start_time end_time) w)
    as [[data | e] w1] eqn:Hup;
    pose proof (fetch_upstream_world _ _ _ _ Hup) as ->.
  - destruct (fetch_upstream_ok _ _ _ _ Hup) as [Ht Hd].
    exists data. eexists. split; [reflexivity|]. now repeat split.
  - unfold bind at 1, logger at 1. unfold bind at 1, logger at 1.
    match goal with
    | |- context [generate_bulk_historical_data E _ _ _ _ ?w2] =>
        destruct (generate_bulk_historical_data_total E lat lon start_time
                    end_time w2)
          as (data & w' & H & Ht & Hd & Hs & Hf & Hsent & _)
    end.
    exists data, w'. split; [exact H|]. repeat split; assumption.
Qed.

Lemma threshold_576 (n : nat) :
  Qltb (inject_Z (Z.of_nat n)) (inject_Z (24 * HISTORICAL_DAYS) * 0.8)
  = (n <? 576)%nat.
Proof.
  change (inject_Z (24 * HISTORICAL_DAYS)) with 720.
  destruct (n <? 576)%nat eqn:Hn.
  - apply Nat.ltb_lt in Hn. apply Qltb_lt.
    assert (H : inject_Z (Z.of_nat n) <= inject_Z 575)
      by (rewrite <- Zle_Qle; lia).
    change (inject_Z 575) with 575 in H.
    set (x := inject_Z (Z.of_nat n)) in *. lra.
  - apply Nat.ltb_ge in Hn.
    destruct (Qltb _ _) eqn:Hq; [|reflexivity].
    apply Qltb_lt in Hq.
    assert (H : inject_Z 576 <= inject_Z (Z.of_nat n))
      by (rewrite <- Zle_Qle; lia).
    change (inject_Z 576) with 576 in H.
    set (x := inject_Z (Z.of_nat n)) in *. lra.
Qed.


End Backfill.


Section Routes.

Variable E : env.

Lemma arg_drop_same (p : string) (l : list (string * string)) :
  arg p (filter (fun kv => negb (String.eqb p (fst kv))) l) = None.
Proof.
  induction l as [|[k v] l IH]; [reflexivity|]. cbn.
  destruct (String.eqb p k) eqn:Hk; cbn; [exact IH|]. now rewrite Hk.
Qed.

Lemma arg_drop_other (p k : string) (l : list (string * string)) :
  p <> k ->
  arg k (filter (fun kv => negb (String.eqb p (fst kv))) l) = arg k l.
Proof.
  intro Hne. induction l as [|[k' v] l IH]; [reflexivity|]. cbn.
  destruct (String.eqb p k') eqn:Hp; cbn.
  - apply String.eqb_eq in Hp. subst k'.
    destruct (String.eqb k p) eqn:Hk; [|exact IH].
    apply String.eqb_eq in Hk. congruence.
  - now rewrite IH.
Qed.

Lemma truthy_zero (q : Q) : q == 0 -> Py.truthy (PFloat q) = false.
Proof.
  intro H. cbn. apply negb_false_iff. now apply Qeq_bool_iff.
Qed.

(** A request with the right key reaches the function under the
    decorator. *)
Lemma require_api_key_pass (f : request -> M response) (rq : request)
  (k : string) :
  x_api_key rq = Some k -> k <> "" -> API_SECRET_KEY E = Some k ->
  require_api_key E f rq = f rq.
Proof.
  intros Hk Hne Hs. unfold require_api_key, py_and. rewrite Hk, Hs.
  cbn [Py.of_option_str Py.truthy].
  destruct (String.eqb k "") eqn:He.
  - apply String.eqb_eq in He. contradiction.
  - cbn [negb]. now rewrite String.eqb_refl.
Qed.

(** A zero or missing lat or lon fails the presence test of the current
    and forecast routes... *)
Lemma coordinates_absent (lat lon : value) :
  Py.truthy lat = false \/ Py.truthy lon = false ->
  Py.truthy (py_and lat lon) = false.
Proof.
  unfold py_and. intros [H | H].
  - now rewrite H.
  - now destruct (Py.truthy lat) eqn:Hl.
Qed.

(** ... and that of the historical route. *)
Lemma parameters_absent (lat lon s e : value) :
  Py.truthy lat = false \/ Py.truthy lon = false ->
  forallb Py.truthy [lat; lon; s; e] = false.
Proof.
  cbn. intros [H | H]; rewrite H; [reflexivity|].
  now destruct (Py.truthy lat).
Qed.

(** C9, amended: for every request that passes the API-key check and
    whose lat or lon parameter parses to exactly 0.0, each of the three
    data routes answers 400 with its "required" error and does nothing
    else, exactly as it answers the same request with that parameter
    left out. *)
Theorem zero_coordinate_rejected (rq : request) (k p : string) (q : Q)
  (w : world) :
  x_api_key rq = Some k -> k <> "" -> API_SECRET_KEY E = Some k ->
  p = "lat" \/ p = "lon" ->
  arg_float E rq p = PFloat q -> q == 0 ->
  route_current E rq w
  = (Ok (error_body "Location required (lat/lon)", 400%Z), w)
  /\ route_forecast E rq w = (Ok (error_body "Coordinates required", 400%Z), w)
  /\ route_historical E rq w
     = (Ok (error_body "lat, lon, start, and end parameters required", 400%Z),
        w)
  /\ route_current E (drop_arg p rq) w = route_current E rq w
  /\ route_forecast E (drop_arg p rq) w = route_forecast E rq w
  /\ route_historical E (drop_arg p rq) w = route_historical E rq w.
Proof.
  intros Hk Hne Hs Hp Hq H0.
  assert (Hzero : Py.truthy (arg_float E rq "lat") = false
                  \/ Py.truthy (arg_float E rq "lon") = false).
  { destruct Hp as [-> | ->]; [left | right]; rewrite Hq;
      now apply truthy_zero. }
  assert (Hdrop : Py.truthy (arg_float E (drop_arg p rq) "lat") = false
                  \/ Py.truthy (arg_float E (drop_arg p rq) "lon") = false).
  { destruct Hp as [-> | ->]; [left | right]; unfold arg_float, drop_arg;
      cbn [args]; now rewrite arg_drop_same. }
  assert (Hcur : route_current E rq w
                 = (Ok (error_body "Location required (lat/lon)", 400%Z), w)).
  { unfold route_current. rewrite (require_api_key_pass _ _ _ Hk Hne Hs).
    unfold get_current_aqi. now rewrite (coordinates_absent _ _ Hzero). }
  assert (Hfor : route_forecast E rq w
                 = (Ok (error_body "Coordinates required", 400%Z), w)).
  { unfold route_forecast. rewrite (require_api_key_pass _ _ _ Hk Hne Hs).
    unfold get_forecast_aqi. now rewrite (coordinates_absent _ _ Hzero). }
  assert (Hhis : route_historical E rq w
                 = (Ok (error_body
                          "lat, lon, start, and end parameters required",
                          400%Z), w)).
  { unfold route_historical. rewrite (require_api_key_pass _ _ _ Hk Hne Hs).
    unfold get_historical_aqi. now rewrite (parameters_absent _ _ _ _ Hzero). }
  assert (Hk' : x_api_key (drop_arg p rq) = Some k) by exact Hk.
  split; [exact Hcur|]. split; [exact Hfor|]. split; [exact Hhis|].
  rewrite Hcur, Hfor, Hhis.
  split; [|split].
  - unfold route_current. rewrite (require_api_key_pass _ _ _ Hk' Hne Hs).
    unfold get_current_aqi. now rewrite (coordinates_absent _ _ Hdrop).
  - unfold route_forecast. rewrite (require_api_key_pass _ _ _ Hk' Hne Hs).
    unfold get_forecast_aqi. now rewrite (coordinates_absent _ _ Hdrop).
  - unfold route_historical. rewrite (require_api_key_pass _ _ _ Hk' Hne Hs).
    unfold get_historical_aqi. now rewrite (parameters_absent _ _ _ _ Hdrop).
Qed.

End Routes.

Lemma zero_coordinate_rejected_witness :
  route_current example_env (equator_request (Some "secret")) example_world
  = (Ok (error_body "Location required (lat/lon)", 400%Z), example_world)
  /\ route_forecast example_env (equator_request (Some "secret")) example_world
     = (Ok (error_body "Coordinates required", 400%Z), example_world)
  /\ route_historical example_env (equator_request (Some "secret"))
                      example_world
     = (Ok (error_body "lat, lon, start, and end parameters required", 400%Z),
        example_world)
  /\ route_current example_env (drop_arg "lat" (equator_request (Some "secret")))
                   example_world
     = route_current example_env (equator_request (Some "secret")) example_world
  /\ route_forecast example_env
                    (drop_arg "lat" (equator_request (Some "secret")))
                    example_world
     = route_forecast example_env (equator_request (Some "secret"))
                      example_world
  /\ route_historical example_env
                      (drop_arg "lat" (equator_request (Some "secret")))
                      example_world
     = route_historical example_env (equator_request (Some "secret"))
                        example_world.
Proof.
  apply (zero_coordinate_rejected example_env (equator_request (Some "secret"))
           "secret" "lat" 0 example_world).
  - reflexivity.
  - discriminate.
  - reflexivity.
  - left. reflexivity.
  - reflexivity.
  - reflexivity.
Defined.

(** C9 as stated fails for a request without the API key: its lat parses
    to 0.0, and the answer is 401, not 400. *)
Lemma zero_coordinate_without_key :
  arg_float example_env (equator_request None) "lat" = PFloat 0
  /\ route_current example_env (equator_request None) example_world
     = (Ok (error_body "API key is missing or invalid", 401%Z), example_world)
  /\ route_forecast example_env (equator_request None) example_world
     = (Ok (error_body "API key is missing or invalid", 401%Z), example_world)
  /\ route_historical example_env (equator_request None) example_world
     = (Ok (error_body "API key is missing or invalid", 401%Z), example_world).
Proof. repeat split. Qed.

(** * Further properties of the code *)

Section Resolver.




End Resolver.

Section GeneratorBounds.

Variable E : env.





(** When the range is empty (end before start) the bulk generator returns
    an envelope without observations, still tagged "Synthetic Fallback",
    and draws no random number. *)
Theorem generate_bulk_historical_data_empty (lat lon : Q)
  (start_time end_time : Z) (w : world) :
  (end_time < start_time)%Z ->
  generate_bulk_historical_data E lat lon start_time end_time w
  = (Ok (PDict [ ("coord", PList [PFloat lat; PFloat lon]);
                 ("list", PList []);
                 ("source", PStr "Synthetic Fallback") ]),
     with_log (log w ++ [InfoGenerated 0 lat lon]) w).
Proof.
  intro Hlt. unfold generate_bulk_historical_data, bind.
  rewrite (bulk_loop_eq E lat lon end_time 0 start_time [] w).
  2:{ destruct (Z_le_dec start_time end_time); [lia | reflexivity]. }
  cbn. now rewrite with_drawn_same.
Qed.

End GeneratorBounds.


Lemma generate_bulk_historical_data_empty_witness :
  generate_bulk_historical_data example_env 51.5074 (-0.1278) 7200 0
                                example_world
  = (Ok (PDict [ ("coord", PList [PFloat 51.5074; PFloat (-0.1278)]);
                 ("list", PList []);
                 ("source", PStr "Synthetic Fallback") ]),
     with_log (log example_world ++ [InfoGenerated 0 51.5074 (-0.1278)])
              example_world).
Proof.
  apply (generate_bulk_historical_data_empty example_env 51.5074 (-0.1278)
           7200 0 example_world).
  lia.
Defined.

Section Gate.

Variable E : env.

(** The decorator lets a request through exactly when its X-API-Key
    header is present, not empty and equal to the configured secret;
    otherwise it answers 401 and the function under it is not run.  With
    no secret configured, or an empty one, every request is refused. *)
Theorem require_api_key_gate (f : request -> M response) (rq : request)
  (w : world) :
  ((exists k, x_api_key rq = Some k /\ k <> ""
              /\ API_SECRET_KEY E = Some k) ->
   require_api_key E f rq w = f rq w)
  /\ (~ (exists k, x_api_key rq = Some k /\ k <> ""
                   /\ API_SECRET_KEY E = Some k) ->
      require_api_key E f rq w
      = (Ok (error_body "API key is missing or invalid", 401%Z), w))
  /\ (API_SECRET_KEY E = None \/ API_SECRET_KEY E = Some "" ->
      require_api_key E f rq w
      = (Ok (error_body "API key is missing or invalid", 401%Z), w)).
Proof.
  assert (Hno : ~ (exists k, x_api_key rq = Some k /\ k <> ""
                             /\ API_SECRET_KEY E = Some k) ->
                require_api_key E f rq w
                = (Ok (error_body "API key is missing or invalid", 401%Z), w)).
  { intro Hn. unfold require_api_key, py_and.
    destruct (x_api_key rq) as [k|] eqn:Hk; [|reflexivity].
    cbn [Py.of_option_str Py.truthy].
    destruct (String.eqb k "") eqn:He;
      [apply String.eqb_eq in He; subst k; reflexivity|].
    cbn [negb Py.truthy].
    destruct (API_SECRET_KEY E) as [s|] eqn:Hs; [|reflexivity].
    destruct (String.eqb k s) eqn:Hks; [|reflexivity].
    exfalso. apply Hn. exists k. apply String.eqb_eq in Hks. subst s.
    split; [reflexivity|]. split; [|reflexivity].
    intros ->. discriminate He. }
  split; [|split; [exact Hno|]].
  - intros (k & Hk & Hne & Hs). now rewrite (require_api_key_pass E f rq k).
  - intro Hs. apply Hno. intros (k & _ & Hne & Hk).
    destruct Hs as [Hs | Hs]; rewrite Hs in Hk; [discriminate|].
    injection Hk as <-. now apply Hne.
Qed.

End Gate.

Section Upstream.

Variable E : env.

(** The try block of the fetch operations raises exactly when there is no
    response, the status is 4xx or 5xx, the body is not JSON, or the JSON
    body is not an object (for instance a list); on every other answer,
    3xx and 1xx included, it returns. *)
Theorem fetch_upstream_raises (rq : http_request) (w : world) :
  (exists e w', fetch_upstream rq w = (Raise e, w'))
  <-> (upstream w (List.length (sent w)) = NoResponse
       \/ (exists status body,
             upstream w (List.length (sent w)) = Response status body
             /\ ((400 <= status < 600)%Z
                 \/ body = None
                 \/ exists v, body = Some v /\ Py.is_dict v = false))).
Proof.
  unfold fetch_upstream, bind, requests_get, raise_for_status, response_json.
  destruct (upstream w (List.length (sent w))) as [|status body] eqn:Hup.
  - split; [now left | intros _; eauto].
  - destruct ((400 <=? status)%Z && (status <? 600)%Z) eqn:Hst.
    + split; [|intros _; unfold lift; eauto].
      intros _. right. exists status, body. split; [reflexivity|]. left.
      apply andb_true_iff in Hst as [H1 H2]. lia.
    + assert (Hst' : ~ (400 <= status < 600)%Z).
      { intro H. apply andb_false_iff in Hst as [H1 | H1];
          [apply Z.leb_gt in H1 | apply Z.ltb_ge in H1]; lia. }
      destruct body as [v|].
      * destruct (Py.is_dict v) eqn:Hd.
        -- destruct v; try discriminate Hd. cbn. split.
           ++ intros (e & w' & H). discriminate H.
           ++ intros [H | (st & b & H & [H1 | [H1 | (v & Hv & Hv')]])].
              ** discriminate H.
              ** injection H as <- <-. contradiction.
              ** injection H as <- <-. discriminate H1.
              ** injection H as <- <-. injection Hv as <-. discriminate Hv'.
        -- split.
           ++ intros _. right. exists status, (Some v).
              split; [reflexivity|]. right. right. now exists v.
           ++ intros _. destruct v; try discriminate Hd; cbn; unfold lift; eauto.
      * split; [|intros _; cbn; unfold lift; eauto].
        intros _. right. exists status, None. split; [reflexivity|].
        right. now left.
Qed.

(** When the provider answers, outside 4xx and 5xx, with a JSON object,
    each of the three fetch operations returns that object with its
    "source" set to "OpenWeatherMap API", whatever source the provider
    wrote and with every other key as sent; one request goes out, and
    nothing is drawn, logged or stored. *)
Theorem upstream_answer_is_tagged (lat lon : Q) (start_time end_time : Z)
  (status : Z) (d : Py.dict) (w : world) :
  upstream w (List.length (sent w)) = Response status (Some (PDict d)) ->
  ~ (400 <= status < 600)%Z ->
  let tagged_answer := PDict (Py.assign "source" (PStr "OpenWeatherMap API") d) in
  fetch_current_aqi E lat lon w
  = (Ok tagged_answer, with_sent (sent w ++ [GetCurrent lat lon]) w)
  /\ fetch_forecast_aqi E lat lon w
     = (Ok tagged_answer, with_sent (sent w ++ [GetForecast lat lon]) w)
  /\ fetch_historical_aqi E lat lon start_time end_time w
     = (Ok tagged_answer,
        with_sent (sent w ++ [GetHistory lat lon start_time end_time]) w)
  /\ source_of tagged_answer = Some (PStr "OpenWeatherMap API")
  /\ forall k, k <> "source" ->
               Py.getitem tagged_answer k = Py.getitem (PDict d) k.
Proof.
  intros Hup Hst. cbv zeta.
  assert (Hb : (400 <=? status)%Z && (status <? 600)%Z = false).
  { apply andb_false_iff.
    destruct (Z.leb_spec 400 status); [right; apply Z.ltb_ge; lia | now left]. }
  assert (Hfetch : forall rq,
            fetch_upstream rq w
            = (Ok (PDict (Py.assign "source" (PStr "OpenWeatherMap API") d)),
               with_sent (sent w ++ [rq]) w)).
  { intro rq. unfold fetch_upstream, bind, requests_get. rewrite Hup.
    cbn. now rewrite Hb. }
  unfold fetch_current_aqi, fetch_forecast_aqi, fetch_historical_aqi,
    try_except. rewrite !Hfetch.
  split; [reflexivity|]. split; [reflexivity|]. split; [reflexivity|].
  split; [apply lookup_assign_eq|].
  intros k Hk. unfold Py.getitem. now rewrite lookup_assign_neq.
Qed.

End Upstream.

Lemma upstream_answer_is_tagged_witness :
  let tagged_answer :=
    PDict (Py.assign "source" (PStr "OpenWeatherMap API")
             [ ("coord", PList [PFloat 51.5074; PFloat (-0.1278)]);
               ("list", PList [ PDict
                  [ ("dt", PInt 1700000000);
                    ("main", PDict [("aqi", PInt 2)]);
                    ("components", PDict [("pm2_5", PFloat 7.5)]) ] ]);
               ("location_name", PStr "London");
               ("source", PStr "Synthetic Fallback") ]) in
  fetch_current_aqi example_env 51.5 0 answering_world
  = (Ok tagged_answer,
     with_sent (sent answering_world ++ [GetCurrent 51.5 0]) answering_world)
  /\ fetch_forecast_aqi example_env 51.5 0 answering_world
     = (Ok tagged_answer,
        with_sent (sent answering_world ++ [GetForecast 51.5 0]) answering_world)
  /\ fetch_historical_aqi example_env 51.5 0 0 7200 answering_world
     = (Ok tagged_answer,
        with_sent (sent answering_world ++ [GetHistory 51.5 0 0 7200])
                  answering_world)
  /\ source_of tagged_answer = Some (PStr "OpenWeatherMap API")
  /\ forall k, k <> "source" ->
               Py.getitem tagged_answer k
               = Py.getitem
                   (PDict
                      [ ("coord", PList [PFloat 51.5074; PFloat (-0.1278)]);
                        ("list", PList [ PDict
                           [ ("dt", PInt 1700000000);
                             ("main", PDict [("aqi", PInt 2)]);
                             ("components", PDict [("pm2_5", PFloat 7.5)]) ] ]);
                        ("location_name", PStr "London");
                        ("source", PStr "Synthetic Fallback") ]) k.
Proof.
  apply (upstream_answer_is_tagged example_env 51.5 0 0 7200 200
           [ ("coord", PList [PFloat 51.5074; PFloat (-0.1278)]);
             ("list", PList [ PDict
                [ ("dt", PInt 1700000000);
                  ("main", PDict [("aqi", PInt 2)]);
                  ("components", PDict [("pm2_5", PFloat 7.5)]) ] ]);
             ("location_name", PStr "London");
             ("source", PStr "Synthetic Fallback") ]
           answering_world).
  - reflexivity.
  - lia.
Defined.

Section CurrentAndForecast.

Variable E : env.

Lemma coord_near_reads (item : value) (i : nat) (x : Q) (w : world) :
  snd (coord_near item i x w) = w.
Proof.
  unfold coord_near.
  repeat (apply bind_reads; [intro; apply lift_reads | intros ? ?]).
  reflexivity.
Qed.

Lemma coord_near_dict (item : value) (i : nat) (x : Q) (w w' : world)
  (b : bool) :
  coord_near item i x w = (Ok b, w') -> exists d, item = PDict d.
Proof.
  unfold coord_near, bind, lift.
  destruct (Py.getitem item "coord") as [c|] eqn:Hc; [|discriminate].
  destruct (getitem_dict _ _ _ Hc) as (d & -> & _). eauto.
Qed.

(** Whatever the file holds, the loop over its items only reads the world
    and, when it returns a sample, returns it tagged. *)
Lemma first_sample_any (lat lon : Q) (location_name : option string)
  (items : list value) (w w' : world) (r : result (option value)) :
  first_sample lat lon location_name items w = (r, w') ->
  w' = w /\ forall v, r = Ok (Some v) -> exists d, v = tagged location_name d.
Proof.
  induction items as [|item items IH].
  - cbn. unfold ret. intros [= <- <-]. split; [reflexivity | discriminate].
  - cbn [first_sample]. unfold bind at 1.
    pose proof (coord_near_reads item 0 lat w) as H0.
    destruct (coord_near item 0 lat w) as [[near_lat | e] w1] eqn:Hn0;
      cbn in H0; subst w1;
      [|intros [= <- <-]; split; [reflexivity | discriminate]].
    destruct (coord_near_dict _ _ _ _ _ _ Hn0) as [d ->].
    unfold bind at 1.
    assert (Hsecond : forall r w1,
              (if near_lat then coord_near (PDict d) 1 lon else ret false) w
              = (r, w1) -> w1 = w).
    { intros r0 w1 H. destruct near_lat.
      - pose proof (coord_near_reads (PDict d) 1 lon w) as H1.
        rewrite H in H1. exact H1.
      - now injection H as _ <-. }
    destruct ((if near_lat then coord_near (PDict d) 1 lon else ret false) w)
      as [[near | e] w1] eqn:Hn1;
      pose proof (Hsecond _ _ eq_refl) as ->;
      [|intros [= <- <-]; split; [reflexivity | discriminate]].
    destruct near; [|exact IH].
    unfold bind. rewrite tag_fallback_dict. unfold ret.
    intros [= <- <-]. split; [reflexivity|]. intros v [= <-]. eauto.
Qed.

Lemma tagged_truthy (location_name : option string) (d : Py.dict) :
  Py.truthy (tagged location_name d) = true.
Proof.
  unfold tagged.
  assert (H : forall k v d', Py.truthy (PDict (Py.assign k v d')) = true).
  { intros k v [|[k' v'] d']; cbn [Py.assign]; [reflexivity|].
    now destruct (String.eqb k k'). }
  apply H.
Qed.

(** The fallback always returns a dictionary tagged "Synthetic Fallback",
    and touches neither the Store nor the network. *)
Lemma get_fallback_data_total (lat lon : Q) (w : world) :
  exists data w',
    _get_fallback_data E lat lon w = (Ok data, w')
    /\ Py.is_dict data = true /\ Py.truthy data = true
    /\ source_of data = Some (PStr "Synthetic Fallback")
    /\ store w' = store w /\ sent w' = sent w /\ db_fault w' = db_fault w.
Proof.
  assert (Hfresh : forall name w0,
            exists data w',
              (result <- generate_fake_data E lat lon None;;
               tag_fallback name result) w0 = (Ok data, w')
              /\ Py.is_dict data = true /\ Py.truthy data = true
              /\ source_of data = Some (PStr "Synthetic Fallback")
              /\ store w' = store w0 /\ sent w' = sent w0
              /\ db_fault w' = db_fault w0).
  { intros name w0. unfold bind.
    change (generate_fake_data E lat lon None w0)
      with (generate_fake_data E lat lon (Some (clock w0)) w0).
    rewrite generate_fake_data_eq, tag_fallback_dict.
    eexists _, _. split; [reflexivity|]. split; [reflexivity|].
    split; [apply tagged_truthy|]. split; [apply tagged_source|].
    now repeat split. }
  assert (Hhandler : forall e w0,
            store w0 = store w -> sent w0 = sent w ->
            db_fault w0 = db_fault w ->
            exists data w',
              (logger (ErrorFallback e);;;
               result <- generate_fake_data E lat lon None;;
               lift (Py.setitem result "source" (PStr "Synthetic Fallback")))
                w0 = (Ok data, w')
              /\ Py.is_dict data = true /\ Py.truthy data = true
              /\ source_of data = Some (PStr "Synthetic Fallback")
              /\ store w' = store w /\ sent w' = sent w
              /\ db_fault w' = db_fault w).
  { intros e w0 H1 H2 H3. unfold bind at 1, logger at 1. unfold bind.
    match goal with
    | |- context [generate_fake_data E lat lon None ?w2] =>
        change (generate_fake_data E lat lon None w2)
          with (generate_fake_data E lat lon (Some (clock w2)) w2)
    end.
    rewrite generate_fake_data_eq. cbn.
    eexists _, _. split; [reflexivity|]. now repeat split. }
  unfold _get_fallback_data, try_except.
  unfold bind at 1, load_fake_data_file at 1.
  destruct (fake_data_file w) as [| |content].
  - unfold bind at 1, ret at 1.
    destruct (Hfresh (_get_location_name lat lon) w) as (data & w' & H & P).
    rewrite H. now exists data, w'.
  - now apply Hhandler.
  - unfold bind at 1. unfold bind at 1, lift at 1.
    destruct (Py.iter content) as [items|e]; [|now apply Hhandler].
    destruct (first_sample lat lon (_get_location_name lat lon) items w)
      as [[[v|]|e] w1] eqn:Hfirst;
      destruct (first_sample_any _ _ _ _ _ _ _ Hfirst) as [-> Hv].
    + destruct (Hv v eq_refl) as [d ->]. unfold ret.
      eexists _, _. split; [reflexivity|]. split; [reflexivity|].
      split; [apply tagged_truthy|]. split; [apply tagged_source|].
      now repeat split.
    + destruct (Hfresh (_get_location_name lat lon) w) as (data & w' & H & P).
      rewrite H. now exists data, w'.
    + now apply Hhandler.
Qed.

(** fetch_current_aqi never raises: whatever the provider answers and
    whatever the sample file holds, it returns a non-empty dictionary
    tagged "OpenWeatherMap API" or "Synthetic Fallback", after exactly one
    request and without touching the Store. *)
Theorem fetch_current_aqi_total (lat lon : Q) (w : world) :
  exists data w',
    fetch_current_aqi E lat lon w = (Ok data, w')
    /\ Py.is_dict data = true /\ Py.truthy data = true
    /\ (source_of data = Some (PStr "OpenWeatherMap API")
        \/ source_of data = Some (PStr "Synthetic Fallback"))
    /\ sent w' = sent w ++ [GetCurrent lat lon]
    /\ store w' = store w.
Proof.
  unfold fetch_current_aqi, try_except.
  destruct (fetch_upstream (GetCurrent lat lon) w) as [[data | e] w1] eqn:Hup;
    pose proof (fetch_upstream_world _ _ _ _ Hup) as ->.
  - destruct (fetch_upstream_ok _ _ _ _ Hup) as [Ht Hd].
    exists data. eexists. split; [reflexivity|].
    split; [exact Hd|]. split; [exact Ht|].
    split; [|now split]. left.
    unfold fetch_upstream, bind, requests_get, raise_for_status,
      response_json in Hup.
    destruct (upstream w (List.length (sent w))) as [|status [body|]];
      try discriminate Hup; cbn in Hup;
      destruct ((400 <=? status)%Z && (status <? 600)%Z);
      try discriminate Hup; cbn in Hup.
    destruct body; try discriminate Hup. cbn in Hup.
    injection Hup as <-. apply lookup_assign_eq.
  - unfold bind at 1, logger at 1.
    match goal with
    | |- context [_get_fallback_data E lat lon ?w2] =>
        destruct (get_fallback_data_total lat lon w2)
          as (data & w' & H & Hd & Ht & Hs & Hstore & Hsent & _)
    end.
    exists data, w'. split; [exact H|]. split; [exact Hd|].
    split; [exact Ht|]. split; [now right|]. now split.
Qed.

(** When the sample file exists but cannot be read, the fallback of
    fetch_current_aqi is one freshly generated observation tagged
    "Synthetic Fallback" that carries no location name, also at a known
    location; the JSON error is logged. *)
Theorem unreadable_file_fallback (lat lon : Q) (w w1 : world) (e : exn) :
  fetch_upstream (GetCurrent lat lon) w = (Raise e, w1) ->
  fake_data_file w = Unreadable ->
  exists envelope w',
    fetch_current_aqi E lat lon w = (Ok envelope, w')
    /\ envelope
       = PDict [ ("coord", PList [PFloat lat; PFloat lon]);
                 ("list", PList [fake_observation E lat lon (clock w)
                                                  (random w) (drawn w)]);
                 ("source", PStr "Synthetic Fallback") ]
    /\ location_name_of envelope = None
    /\ log w' = log w ++ [ErrorApi e; ErrorFallback JSONDecodeError].
Proof.
  intros Hfail Hfile.
  pose proof (fetch_upstream_world _ _ _ _ Hfail) as ->.
  unfold fetch_current_aqi, try_except. rewrite Hfail.
  unfold bind at 1, logger at 1.
  unfold _get_fallback_data, try_except.
  unfold bind at 1, load_fake_data_file at 1.
  cbn [fake_data_file with_log with_sent]. rewrite Hfile.
  unfold bind at 1, logger at 1. unfold bind.
  match goal with
  | |- context [generate_fake_data E lat lon None ?w2] =>
      change (generate_fake_data E lat lon None w2)
        with (generate_fake_data E lat lon (Some (clock w)) w2)
  end.
  rewrite generate_fake_data_eq. cbn.
  eexists _, _. split; [reflexivity|]. split; [reflexivity|].
  split; [reflexivity|]. now rewrite <- app_assoc.
Qed.

End CurrentAndForecast.

Lemma unreadable_file_fallback_witness :
  exists envelope w',
    fetch_current_aqi example_env 51.5074 (-0.1278) unreadable_world
    = (Ok envelope, w')
    /\ envelope
       = PDict [ ("coord", PList [PFloat 51.5074; PFloat (-0.1278)]);
                 ("list", PList [fake_observation example_env 51.5074 (-0.1278)
                                   (clock unreadable_world)
                                   (random unreadable_world)
                                   (drawn unreadable_world)]);
                 ("source", PStr "Synthetic Fallback") ]
    /\ location_name_of envelope = None
    /\ log w' = log unreadable_world
                ++ [ErrorApi ConnectionError; ErrorFallback JSONDecodeError].
Proof.
  apply (unreadable_file_fallback example_env 51.5074 (-0.1278)
           unreadable_world
           (with_sent [GetCurrent 51.5074 (-0.1278)] unreadable_world)
           ConnectionError).
  - reflexivity.
  - reflexivity.
Defined.

Section ForecastAndSamples.

Variable E : env.

Lemma forecast_loop_eq (lat lon : Q) (current_time : Z) (hours : list Z) :
  forall (forecast_list : list value) (w : world),
    forecast_loop E lat lon current_time hours forecast_list w
    = (Ok (forecast_list
           ++ forecast_points E lat lon current_time hours (random w) (drawn w)),
       with_drawn (drawn w + 9 * List.length hours) w).
Proof.
  induction hours as [|h hours IH]; intros forecast_list w.
  - cbn. rewrite ?Nat.mul_0_r. now rewrite app_nil_r, with_drawn_same.
  - cbn [forecast_loop].
    rewrite (bind_run _ _ _ _ _ (generate_fake_data_eq E lat lon _ w)).
    erewrite bind_lift_run by reflexivity.
    erewrite bind_lift_run by reflexivity.
    rewrite IH. cbn [forecast_points random drawn with_drawn List.length].
    rewrite <- app_assoc. f_equal. unfold with_drawn. cbn. f_equal. lia.
Qed.

Lemma forecast_points_dt (lat lon : Q) (current_time : Z) (hours : list Z)
  (r : nat -> Q) :
  forall p,
    map dt_of (forecast_points E lat lon current_time hours r p)
    = map (fun h => Some (current_time + h * 3600)%Z) hours.
Proof.
  induction hours as [|h hours IH]; intro p; [reflexivity|].
  cbn [forecast_points map]. now rewrite IH.
Qed.

Lemma range_96 : range 0 96 3 = map (fun i => (3 * Z.of_nat i)%Z) (seq 0 32).
Proof. reflexivity. Qed.

(** When the upstream forecast request fails, fetch_forecast_aqi returns an
    envelope tagged "Synthetic Fallback" with 32 observations, the first
    at the clock and each three hours after the one before; it draws 288
    random numbers and leaves the Store alone. *)
Theorem forecast_fallback_points (lat lon : Q) (w w1 : world) (e : exn) :
  fetch_upstream (GetForecast lat lon) w = (Raise e, w1) ->
  exists envelope w',
    fetch_forecast_aqi E lat lon w = (Ok envelope, w')
    /\ source_of envelope = Some (PStr "Synthetic Fallback")
    /\ List.length (observations envelope) = 32%nat
    /\ map dt_of (observations envelope)
       = map (fun i => Some (clock w + 10800 * Z.of_nat i)%Z) (seq 0 32)
    /\ drawn w' = (drawn w + 288)%nat
    /\ store w' = store w.
Proof.
  intro Hfail. pose proof (fetch_upstream_world _ _ _ _ Hfail) as ->.
  unfold fetch_forecast_aqi, try_except. rewrite Hfail.
  unfold bind at 1, logger at 1.
  unfold _generate_forecast_fallback.
  unfold bind at 1, time_time at 1. unfold bind at 1.
  rewrite forecast_loop_eq. cbn [app].
  eexists _, _. split; [reflexivity|].
  split; [reflexivity|].
  unfold observations. cbn [Py.getitem Py.assign Py.lookup String.eqb
                            Ascii.eqb Bool.eqb].
  cbn [clock drawn random with_log with_sent with_drawn store].
  split; [|split; [|split; [reflexivity | reflexivity]]].
  - rewrite <- (length_map dt_of), forecast_points_dt, length_map. reflexivity.
  - rewrite forecast_points_dt, range_96, map_map. apply map_ext.
    intro i. f_equal. lia.
Qed.

(** fetch_forecast_aqi never raises and leaves the Store alone. *)
Lemma fetch_forecast_aqi_total (lat lon : Q) (w : world) :
  exists data w',
    fetch_forecast_aqi E lat lon w = (Ok data, w')
    /\ Py.truthy data = true /\ store w' = store w
    /\ sent w' = sent w ++ [GetForecast lat lon].
Proof.
  unfold fetch_forecast_aqi, try_except.
  destruct (fetch_upstream (GetForecast lat lon) w) as [[data | e] w1] eqn:Hup;
    pose proof (fetch_upstream_world _ _ _ _ Hup) as ->.
  - destruct (fetch_upstream_ok _ _ _ _ Hup) as [Ht _].
    exists data. eexists. split; [reflexivity|]. now repeat split.
  - unfold bind at 1, logger at 1. unfold _generate_forecast_fallback.
    unfold bind at 1, time_time at 1. unfold bind at 1.
    rewrite forecast_loop_eq.
    eexists _, _. split; [reflexivity|]. now repeat split.
Qed.

(** *** The sample file *)










End ForecastAndSamples.

Lemma forecast_fallback_points_witness :
  exists envelope w',
    fetch_forecast_aqi example_env 51.5 0 example_world = (Ok envelope, w')
    /\ source_of envelope = Some (PStr "Synthetic Fallback")
    /\ List.length (observations envelope) = 32%nat
    /\ map dt_of (observations envelope)
       = map (fun i => Some (clock example_world + 10800 * Z.of_nat i)%Z)
             (seq 0 32)
    /\ drawn w' = (drawn example_world + 288)%nat
    /\ store w' = store example_world.
Proof.
  apply (forecast_fallback_points example_env 51.5 0 example_world
           (with_sent [GetForecast 51.5 0] example_world) ConnectionError).
  reflexivity.
Defined.

Section StoreInvariants.

Variable E : env.

(** [lift_ok], [bind_ok]: as in the section on inserts. *)
Ltac bind_ok' H a w1 Hm :=
  unfold bind at 1 in H;
  match type of H with
  | match ?m ?w with _ => _ end = _ =>
      destruct (m w) as [[a | ?] w1] eqn:Hm; [| discriminate H]
  end.

Ltac lift_ok' H a Hr :=
  let w1 := fresh "w" in
  let Hm := fresh "Hm" in
  bind_ok' H a w1 Hm;
  apply lift_ok in Hm as [Hr ->].

Lemma save_items_inserted (data lat lon location_name : value)
  (items : list value) :
  forall (pending : list Sql.row) (n : nat) (w w' : world)
         (pending' : list Sql.row) (n' : nat),
    save_items E data lat lon location_name items pending n w
    = (Ok (pending', n'), w') ->
    exists new, pending' = pending ++ new
                /\ inserted (sqlite_casts E) (clock w) (store w ++ pending) new.
Proof.
  induction items as [|item items IH]; intros pending n w w' pending' n' H.
  - cbn in H. unfold ret in H. injection H as <- <- <-.
    exists []. split; [now rewrite app_nil_r | exact I].
  - cbn [save_items] in H.
    lift_ok' H dt Hdt. lift_ok' H main Hmain. lift_ok' H aqi Haqi.
    bind_ok' H pm2_5 w1 H1. apply component_ok in H1 as [-> ->].
    bind_ok' H pm10 w1 H1. apply component_ok in H1 as [-> ->].
    bind_ok' H co w1 H1. apply component_ok in H1 as [-> ->].
    bind_ok' H no w1 H1. apply component_ok in H1 as [-> ->].
    bind_ok' H no2 w1 H1. apply component_ok in H1 as [-> ->].
    bind_ok' H o3 w1 H1. apply component_ok in H1 as [-> ->].
    bind_ok' H so2 w1 H1. apply component_ok in H1 as [-> ->].
    bind_ok' H nh3 w1 H1. apply component_ok in H1 as [-> ->].
    lift_ok' H source Hsource.
    bind_ok' H p w1 Hp. apply bind_params_ok in Hp. destruct Hp as (-> & _).
    bind_ok' H r w1 Hr. apply (execute_insert_ok E) in Hr as [-> Hr].
    apply IH in H. destruct H as (new & -> & Hnew).
    exists (r :: new). split; [now rewrite <- app_assoc|].
    cbn [inserted]. split; [now exists p|].
    now rewrite <- app_assoc.
Qed.

(** The rows of one call of [save_to_database], with the inserts that
    made them and the items they were made from. *)
Lemma save_to_database_batch (data : value) (name : option string)
  (w : world) :
  exists w' new,
    save_to_database E data name w = (Ok tt, w')
    /\ store w' = store w ++ new
    /\ inserted (sqlite_casts E) (clock w) (store w) new
    /\ (new = []
        \/ exists location_name lat lon l items,
             Py.get data "list" (PList []) = Ok l /\ Py.iter l = Ok items
             /\ Forall2 (row_of_item E data lat lon location_name) items new
             /\ (exists raw_coord,
                   Py.get data "coord" (PDict []) = Ok raw_coord
                   /\ if Py.is_dict raw_coord
                      then Py.get raw_coord "lat" PNone = Ok lat
                           /\ Py.get raw_coord "lon" PNone = Ok lon
                      else Py.getindex raw_coord 0 = Ok lat
                           /\ Py.getindex raw_coord 1 = Ok lon)).
Proof.
  unfold save_to_database, try_except.
  destruct (save_body E data name w) as [[[] | e] w1] eqn:Hbody.
  - pose proof Hbody as H. unfold save_body in H.
    bind_ok' H u w0 Hconnect.
    assert (w0 = w) as ->.
    { unfold connect in Hconnect. destruct (db_fault w); try discriminate;
        now injection Hconnect as _ <-. }
    bind_ok' H u2 w1' Hlog. unfold logger in Hlog. injection Hlog as _ <-.
    set (w2 := with_log (log w ++ [PrintSaving (Py.of_option_str name)]) w)
      in H.
    bind_ok' H location_name w3 Hname.
    assert (w3 = w2) as ->
      by (destruct (Py.is_dict data && Py.has_key data "location_name");
          now injection Hname as _ <-).
    lift_ok' H raw_coord Hraw. lift_ok' H lat Hlat. lift_ok' H lon Hlon.
    lift_ok' H l Hlist. lift_ok' H items Hiter.
    bind_ok' H saved w3 Hsave. destruct saved as [pending n].
    destruct (save_items_inserted _ _ _ _ _ _ _ _ _ _ _ Hsave)
      as (new & Hp & Hins).
    destruct (save_items_ok E _ _ _ _ _ _ _ _ _ _ _ Hsave)
      as (-> & _ & new' & Hp' & Hrows).
    cbn [app] in Hp, Hp'. subst pending. subst new'.
    rewrite app_nil_r in Hins.
    cbn [fst snd] in H.
    bind_ok' H u3 w3 Hcommit.
    assert (w3 = with_store (store w2 ++ new) w2) as ->.
    { unfold commit in Hcommit. destruct (db_fault w2); try discriminate;
        now injection Hcommit as _ <-. }
    unfold logger in H. injection H as <-.
    eexists _, new. split; [reflexivity|]. split; [reflexivity|].
    split; [exact Hins|]. right.
    exists location_name, lat, lon, l, items.
    split; [exact Hlist|]. split; [exact Hiter|]. split; [exact Hrows|].
    exists raw_coord. split; [exact Hraw|].
    destruct (Py.is_dict raw_coord); now split.
  - destruct (save_body_raise E _ _ _ _ _ Hbody) as [l ->].
    eexists _, []. split; [reflexivity|].
    split; [cbn; now rewrite app_nil_r|]. split; [exact I | now left].
Qed.

Lemma next_id_gt (rows : list Sql.row) (r : Sql.row) :
  In r rows -> (Sql.id r < Sql.next_id rows)%Z.
Proof.
  unfold Sql.next_id. induction rows as [|x rows IH]; [intros []|].
  cbn [fold_right]. intros [-> | Hin]; [lia|]. specialize (IH Hin). lia.
Qed.

Lemma insert_id (c : Sql.casts) (now : Z) (visible : list Sql.row)
  (p : Sql.params) (r : Sql.row) :
  Sql.insert c now visible p = Ok r ->
  Sql.id r = Sql.next_id visible
  /\ Sql.created_at r = now
  /\ Sql.is_null (Sql.timestamp r) = false
  /\ Sql.is_null (Sql.latitude r) = false
  /\ Sql.is_null (Sql.longitude r) = false
  /\ Sql.is_null (Sql.aqi r) = false
  /\ Sql.is_null (Sql.source r) = false.
Proof.
  unfold Sql.insert.
  cbn [Sql.timestamp Sql.latitude Sql.longitude Sql.aqi Sql.source].
  destruct (Sql.is_null _) eqn:H1; [discriminate|].
  destruct (Sql.is_null (Sql.apply_affinity c Sql.AffReal (Sql.p_latitude p)))
    eqn:H2; [discriminate|].
  destruct (Sql.is_null (Sql.apply_affinity c Sql.AffReal (Sql.p_longitude p)))
    eqn:H3; [discriminate|].
  destruct (Sql.is_null (Sql.apply_affinity c Sql.AffInteger (Sql.p_aqi p)))
    eqn:H4; [discriminate|].
  destruct (Sql.is_null (Sql.apply_affinity c Sql.AffText (Sql.p_source p)))
    eqn:H5; [discriminate|].
  cbn [orb]. intros [= <-]. cbn. tauto.
Qed.

Lemma inserted_ids (c : Sql.casts) (now : Z) (new : list Sql.row) :
  forall visible,
    inserted c now visible new ->
    (forall r, In r new ->
       (forall r0, In r0 visible -> (Sql.id r0 < Sql.id r)%Z)
       /\ Sql.is_null (Sql.timestamp r) = false
       /\ Sql.is_null (Sql.latitude r) = false
       /\ Sql.is_null (Sql.longitude r) = false
       /\ Sql.is_null (Sql.aqi r) = false
       /\ Sql.is_null (Sql.source r) = false)
    /\ StronglySorted Z.lt (map Sql.id new).
Proof.
  induction new as [|r new IH]; intros visible Hins.
  - split; [intros r []| constructor].
  - destruct Hins as [[p Hp] Hrest].
    destruct (insert_id _ _ _ _ _ Hp) as (Hid & _ & Hnn).
    destruct (IH _ Hrest) as [Hall Hsorted].
    split.
    + intros r' [<- | Hin].
      * split; [|exact Hnn]. intros r0 H0. rewrite Hid. now apply next_id_gt.
      * destruct (Hall r' Hin) as [Hlt Hn']. split; [|exact Hn'].
        intros r0 H0. apply Hlt. apply in_or_app. now left.
    + cbn [map]. constructor; [exact Hsorted|].
      apply Forall_forall. intros z Hz. apply in_map_iff in Hz as (r' & <- & Hin).
      destruct (Hall r' Hin) as [Hlt _]. apply Hlt.
      apply in_or_app. right. now left.
Qed.

Lemma nodup_ids_app (old new : list Sql.row) :
  NoDup (map Sql.id old) -> NoDup (map Sql.id new) ->
  (forall r r0, In r new -> In r0 old -> (Sql.id r0 < Sql.id r)%Z) ->
  NoDup (map Sql.id (old ++ new)).
Proof.
  intros Hold Hnew Hlt. induction old as [|r0 old IH]; [exact Hnew|].
  cbn [map app]. inversion Hold as [|? ? Hnotin Hold']; subst.
  constructor.
  - rewrite map_app. intro Hin.
    apply in_app_or in Hin as [Hin | Hin]; [contradiction|].
    apply in_map_iff in Hin as (r & Heq & Hr).
    specialize (Hlt r r0 Hr (or_introl eq_refl)). lia.
  - apply IH; [exact Hold'|].
    intros r r1 Hr H1. apply Hlt; [exact Hr | now right].
Qed.

(** Row ids are fresh: whatever is saved, every row written has an id
    above all ids already in the table, and the ids of one batch increase
    in the order of the items; so ids that were distinct stay distinct. *)
Theorem saved_rows_fresh_ids (data : value) (name : option string)
  (w : world) :
  exists w' new,
    save_to_database E data name w = (Ok tt, w')
    /\ store w' = store w ++ new
    /\ (forall r r0, In r new -> In r0 (store w) -> (Sql.id r0 < Sql.id r)%Z)
    /\ StronglySorted Z.lt (map Sql.id new)
    /\ (NoDup (map Sql.id (store w)) -> NoDup (map Sql.id (store w'))).
Proof.
  destruct (save_to_database_batch data name w)
    as (w' & new & Hsave & Hstore & Hins & _).
  destruct (inserted_ids _ _ _ _ Hins) as [Hall Hsorted].
  exists w', new. split; [exact Hsave|]. split; [exact Hstore|].
  split; [intros r r0 Hr Hr0; now apply (proj1 (Hall r Hr))|].
  split; [exact Hsorted|].
  intro Hnodup. rewrite Hstore.
  assert (Hnew : NoDup (map Sql.id new)).
  { clear -Hsorted. induction Hsorted as [|z l _ IH Hz]; constructor;
      [|exact IH].
    intro Hin. rewrite Forall_forall in Hz. specialize (Hz z Hin). lia. }
  apply nodup_ids_app; [exact Hnodup | exact Hnew|].
  intros r r0 Hr Hr0. now apply (proj1 (Hall r Hr)).
Qed.

(** One call of [save_to_database] is all or nothing: it writes a row for
    every item of the list or no row at all.  An item without "dt" makes
    it write nothing, also for the items before it; and so does an
    envelope without "coord" unless its list is empty, because the
    latitude would be NULL. *)
Theorem save_to_database_all_or_nothing (data : value)
  (name : option string) (w : world) :
  exists w' new,
    save_to_database E data name w = (Ok tt, w')
    /\ store w' = store w ++ new
    /\ (new = []
        \/ exists l items, Py.get data "list" (PList []) = Ok l
                           /\ Py.iter l = Ok items
                           /\ List.length new = List.length items)
    /\ (forall l items item e,
          Py.get data "list" (PList []) = Ok l -> Py.iter l = Ok items ->
          In item items -> Py.getitem item "dt" = Raise e -> new = [])
    /\ (Py.has_key data "coord" = false -> new = []).
Proof.
  destruct (save_to_database_batch data name w)
    as (w' & new & Hsave & Hstore & Hins & Hbatch).
  exists w', new. split; [exact Hsave|]. split; [exact Hstore|].
  destruct Hbatch as [-> | (location_name & lat & lon & l & items & Hl & Hiter
                            & Hrows & raw & Hraw & Hcoord)].
  - split; [now left|]. split; [reflexivity | reflexivity].
  - split; [right; exists l, items; split; [exact Hl|]; split; [exact Hiter|];
            symmetry; apply (Forall2_length Hrows)|].
    split.
    + intros l' items' item e Hl' Hiter' Hin Hdt.
      rewrite Hl in Hl'. injection Hl' as <-.
      rewrite Hiter in Hiter'. injection Hiter' as <-.
      exfalso. clear -Hrows Hin Hdt.
      induction Hrows as [|x r items new Hxr _ IH]; [contradiction|].
      destruct Hin as [-> | Hin]; [|now apply IH].
      destruct Hxr as ((dt & Hdt' & _) & _). congruence.
    + intro Hk. destruct new as [|r new]; [reflexivity|]. exfalso.
      destruct (inserted_ids _ _ _ _ Hins) as [Hall _].
      destruct (Hall r (or_introl eq_refl)) as (_ & _ & Hlat & _).
      inversion Hrows as [|item ? ? ? Hrow _]; subst.
      destruct Hrow as (_ & (b & Hb & Hs) & _).
      assert (lat = PNone).
      { destruct data as [| | | | | |d]; try discriminate Hraw.
        cbn in Hk, Hraw. destruct (Py.lookup "coord" d); [discriminate Hk|].
        injection Hraw as <-. cbn in Hcoord. destruct Hcoord as [Hc _].
        now injection Hc as <-. }
      subst lat. cbn in Hb. injection Hb as <-. rewrite Hs in Hlat.
      discriminate Hlat.
Qed.

End StoreInvariants.

Section Monotone.

Variable E : env.

Section Closure.

Variable R : world -> world -> Prop.
Hypothesis R_refl : forall w, R w w.
Hypothesis R_trans : forall w1 w2 w3, R w1 w2 -> R w2 w3 -> R w1 w3.

Lemma respects_ret {A} (a : A) : respects R (ret a).
Proof. intro w. apply R_refl. Qed.

Lemma respects_lift {A} (r : result A) : respects R (lift r).
Proof. intro w. apply R_refl. Qed.

Lemma respects_bind {A B} (m : M A) (k : A -> M B) :
  respects R m -> (forall a, respects R (k a)) -> respects R (bind m k).
Proof.
  intros Hm Hk w. unfold bind. specialize (Hm w).
  destruct (m w) as [[a | e] w1]; cbn in Hm; [|exact Hm].
  apply (R_trans _ _ _ Hm). apply Hk.
Qed.

Lemma respects_try_except {A} (m : M A) (h : exn -> M A) :
  respects R m -> (forall e, respects R (h e)) -> respects R (try_except m h).
Proof.
  intros Hm Hh w. unfold try_except. specialize (Hm w).
  destruct (m w) as [[a | e] w1]; cbn in Hm; [exact Hm|].
  apply (R_trans _ _ _ Hm). apply Hh.
Qed.

Lemma respects_if {A} (b : bool) (m1 m2 : M A) :
  respects R m1 -> respects R m2 -> respects R (if b then m1 else m2).
Proof. now destruct b. Qed.

End Closure.

Lemma same_rows_refl (w : world) : same_rows w w.
Proof. reflexivity. Qed.

Lemma same_rows_trans (w1 w2 w3 : world) :
  same_rows w1 w2 -> same_rows w2 w3 -> same_rows w1 w3.
Proof. unfold same_rows. congruence. Qed.

Lemma grows_refl (w : world) : grows w w.
Proof. exists []. now rewrite app_nil_r. Qed.

Lemma grows_trans (w1 w2 w3 : world) :
  grows w1 w2 -> grows w2 w3 -> grows w1 w3.
Proof.
  intros [n1 H1] [n2 H2]. exists (n1 ++ n2). now rewrite H2, H1, app_assoc.
Qed.

Lemma same_rows_grows {A} (m : M A) : respects same_rows m -> respects grows m.
Proof.
  intros H w. exists []. rewrite app_nil_r. apply H.
Qed.

Lemma logger_same_rows (e : log_entry) : respects same_rows (logger e).
Proof. intro w. reflexivity. Qed.

Lemma fetch_current_aqi_returns (lat lon : Q) (w : world) :
  exists data w',
    fetch_current_aqi E lat lon w = (Ok data, w')
    /\ Py.truthy data = true
    /\ sent w' = sent w ++ [GetCurrent lat lon]
    /\ store w' = store w.
Proof.
  unfold fetch_current_aqi, try_except.
  destruct (fetch_upstream (GetCurrent lat lon) w) as [[data | e] w1] eqn:Hup;
    pose proof (fetch_upstream_world _ _ _ _ Hup) as ->.
  - destruct (fetch_upstream_ok _ _ _ _ Hup) as [Ht Hd].
    exists data. eexists. split; [reflexivity|]. now repeat split.
  - unfold bind at 1, logger at 1.
    match goal with
    | |- context [_get_fallback_data E lat lon ?w2] =>
        destruct (get_fallback_data_total E lat lon w2)
          as (data & w' & H & Hd & Ht & Hs & Hstore & Hsent & _)
    end.
    exists data, w'. split; [exact H|]. now repeat split.
Qed.

Lemma fetch_current_same_rows (lat lon : Q) :
  respects same_rows (fetch_current_aqi E lat lon).
Proof.
  intro w. destruct (fetch_current_aqi_returns lat lon w)
    as (data & w' & H & _ & _ & Hs).
  now rewrite H.
Qed.

Lemma fetch_forecast_same_rows (lat lon : Q) :
  respects same_rows (fetch_forecast_aqi E lat lon).
Proof.
  intro w. destruct (fetch_forecast_aqi_total E lat lon w)
    as (data & w' & H & _ & Hs & _).
  now rewrite H.
Qed.

Lemma fetch_historical_same_rows (lat lon : Q) (start_time end_time : Z) :
  respects same_rows (fetch_historical_aqi E lat lon start_time end_time).
Proof.
  intro w. destruct (fetch_historical_aqi_total E lat lon start_time end_time w)
    as (data & w' & H & _ & _ & _ & Hs & _).
  now rewrite H.
Qed.

Lemma get_historical_same_rows (lat lon : Q) (start_time end_time : Z) :
  respects same_rows (get_historical_from_db lat lon start_time end_time).
Proof.
  intro w. destruct (get_historical_from_db_total lat lon start_time end_time w)
    as (rows & l & H).
  now rewrite H.
Qed.

Lemma save_grows (data : value) (name : option string) :
  respects grows (save_to_database E data name).
Proof.
  intro w. destruct (save_to_database_world E data name w) as (new & l & H).
  rewrite H. now exists new.
Qed.

Lemma populate_location_grows (start_time end_time : Z)
  (loc : Q * Q * string) :
  respects grows (populate_location E start_time end_time loc).
Proof.
  destruct loc as [[lat lon] name]. unfold populate_location.
  apply (respects_bind _ grows_trans);
    [apply same_rows_grows, get_historical_same_rows | intro existing].
  apply respects_if.
  - apply (respects_bind _ grows_trans);
      [apply same_rows_grows, logger_same_rows | intros _].
    apply (respects_bind _ grows_trans);
      [apply same_rows_grows, fetch_historical_same_rows | intro data].
    apply respects_if; [|apply (respects_ret _ grows_refl)].
    apply (respects_bind _ grows_trans);
      [apply (respects_lift _ grows_refl) | intro named].
    apply save_grows.
  - apply same_rows_grows, logger_same_rows.
Qed.

Lemma for_each_grows {A} (f : A -> M unit) (l : list A) :
  (forall x, respects grows (f x)) -> respects grows (for_each f l).
Proof.
  intro Hf. induction l as [|x l IH]; [apply (respects_ret _ grows_refl)|].
  cbn [for_each]. apply (respects_bind _ grows_trans); [apply Hf | intros _].
  exact IH.
Qed.

Lemma require_api_key_respects (R : world -> world -> Prop)
  (f : request -> M response) (rq : request) :
  (forall w, R w w) -> respects R (f rq) ->
  respects R (require_api_key E f rq).
Proof.
  intros Hrefl Hf. unfold require_api_key.
  apply respects_if; [exact Hf | now apply respects_ret].
Qed.

(** No route and no job removes or rewrites a row: after the current and
    the historical route and after the backfill job the table is the old
    table followed by new rows, and after the forecast route it is the
    same table.  This holds for every request, whatever the provider, the
    sample file and the storage do, and whether the call returns or
    raises. *)
Theorem store_only_grows (rq : request) (w : world) :
  grows w (snd (route_current E rq w))
  /\ same_rows w (snd (route_forecast E rq w))
  /\ grows w (snd (route_historical E rq w))
  /\ grows w (snd (populate_initial_historical_data E w)).
Proof.
  split; [|split; [|split]].
  - apply (require_api_key_respects grows); [apply grows_refl|].
    unfold get_current_aqi.
    apply respects_if; [apply (respects_ret _ grows_refl)|].
    apply (respects_bind _ grows_trans);
      [apply (respects_lift _ grows_refl) | intro lat].
    apply (respects_bind _ grows_trans);
      [apply (respects_lift _ grows_refl) | intro lon].
    apply (respects_bind _ grows_trans);
      [apply same_rows_grows, fetch_current_same_rows | intro data].
    apply respects_if; [|apply (respects_ret _ grows_refl)].
    apply (respects_bind _ grows_trans); [apply save_grows | intros _].
    apply (respects_ret _ grows_refl).
  - apply (require_api_key_respects same_rows); [apply same_rows_refl|].
    unfold get_forecast_aqi.
    apply respects_if; [apply (respects_ret _ same_rows_refl)|].
    apply (respects_bind _ same_rows_trans);
      [apply (respects_lift _ same_rows_refl) | intro lat].
    apply (respects_bind _ same_rows_trans);
      [apply (respects_lift _ same_rows_refl) | intro lon].
    apply (respects_bind _ same_rows_trans);
      [apply fetch_forecast_same_rows | intro data].
    apply respects_if; apply (respects_ret _ same_rows_refl).
  - apply (require_api_key_respects grows); [apply grows_refl|].
    unfold get_historical_aqi.
    apply respects_if; [apply (respects_ret _ grows_refl)|].
    apply (respects_try_except _ grows_trans).
    + apply (respects_bind _ grows_trans);
        [apply (respects_lift _ grows_refl) | intro start_ts].
      apply (respects_bind _ grows_trans);
        [apply (respects_lift _ grows_refl) | intro end_ts].
      apply (respects_bind _ grows_trans);
        [apply (respects_lift _ grows_refl) | intro lat].
      apply (respects_bind _ grows_trans);
        [apply (respects_lift _ grows_refl) | intro lon].
      apply (respects_bind _ grows_trans);
        [apply same_rows_grows, get_historical_same_rows | intro db_data].
      apply respects_if; [apply (respects_ret _ grows_refl)|].
      apply (respects_bind _ grows_trans);
        [apply same_rows_grows, fetch_historical_same_rows | intro api_data].
      apply respects_if; [|apply (respects_ret _ grows_refl)].
      apply (respects_bind _ grows_trans); [apply save_grows | intros _].
      apply (respects_ret _ grows_refl).
    + intro e. apply (respects_bind _ grows_trans);
        [apply same_rows_grows, logger_same_rows | intros _].
      apply (respects_ret _ grows_refl).
  - unfold populate_initial_historical_data.
    apply (respects_bind _ grows_trans);
      [intro w0; apply grows_refl | intro end_time].
    apply (respects_bind _ grows_trans);
      [apply same_rows_grows, logger_same_rows | intros _].
    apply for_each_grows. intro loc. apply populate_location_grows.
Qed.

End Monotone.

Section RouteAnswers.

Variable E : env.

Lemma require_api_key_cases (f : request -> M response) (rq : request)
  (w : world) :
  (key_accepted E rq /\ require_api_key E f rq w = f rq w)
  \/ (~ key_accepted E rq
      /\ require_api_key E f rq w
         = (Ok (error_body "API key is missing or invalid", 401%Z), w)).
Proof.
  unfold key_accepted, require_api_key, py_and.
  destruct (x_api_key rq) as [k|] eqn:Hk.
  - cbn [Py.of_option_str Py.truthy].
    destruct (String.eqb k "") eqn:He; cbn [negb].
    + cbn [Py.truthy]. rewrite He. cbn [negb].
      apply String.eqb_eq in He. right. split; [|reflexivity].
      intros (k' & [= <-] & Hne & _). contradiction.
    + destruct (API_SECRET_KEY E) as [s|] eqn:Hs.
      * destruct (String.eqb k s) eqn:Hks; cbn [Py.truthy].
        -- apply String.eqb_eq in Hks. subst s. left. split; [|reflexivity].
           exists k. split; [reflexivity|]. split; [|reflexivity].
           intros ->. discriminate He.
        -- right. split; [|reflexivity].
           intros (k' & [= <-] & _ & [= <-]).
           rewrite String.eqb_refl in Hks. discriminate.
      * right. split; [|reflexivity]. intros (k' & _ & _ & H). discriminate.
  - right. split; [|reflexivity]. intros (k' & H & _). discriminate.
Qed.

Lemma truthy_and (a b : value) :
  Py.truthy (py_and a b) = Py.truthy a && Py.truthy b.
Proof. unfold py_and. now destruct (Py.truthy a) eqn:H. Qed.

Lemma arg_float_truthy (rq : request) (k : string) :
  Py.truthy (arg_float E rq k) = true ->
  exists q, arg_float E rq k = PFloat q /\ ~ q == 0.
Proof.
  unfold arg_float. destruct (arg k (args rq)) as [s|]; [|discriminate].
  destruct (parse_float E s) as [q|]; [|discriminate].
  cbn [Py.truthy]. intro H. exists q. split; [reflexivity|].
  intro Hq. apply Qeq_bool_iff in Hq. rewrite Hq in H. discriminate.
Qed.

(** The current route never raises and never answers 500.  It answers 401
    when the key is not accepted and 400 when lat or lon is missing,
    unreadable or zero, both without doing anything; in every other case
    it answers 200 with what fetch_current_aqi returned, after one upstream
    request and one call of save_to_database. *)
Theorem route_current_answers (rq : request) (w : world) :
  exists body status w',
    route_current E rq w = (Ok (body, status), w')
    /\ ((status = 401%Z /\ ~ key_accepted E rq /\ w' = w)
        \/ (status = 400%Z /\ key_accepted E rq /\ w' = w
            /\ Py.truthy (py_and (arg_float E rq "lat") (arg_float E rq "lon"))
               = false)
        \/ (status = 200%Z /\ key_accepted E rq
            /\ exists lat lon w1,
                 arg_float E rq "lat" = PFloat lat
                 /\ arg_float E rq "lon" = PFloat lon
                 /\ ~ lat == 0 /\ ~ lon == 0
                 /\ fetch_current_aqi E lat lon w = (Ok body, w1)
                 /\ save_to_database E body None w1 = (Ok tt, w')
                 /\ sent w' = sent w ++ [GetCurrent lat lon])).
Proof.
  unfold route_current.
  destruct (require_api_key_cases (get_current_aqi E) rq w)
    as [[Hk ->] | [Hk ->]].
  2:{ eexists _, _, _. split; [reflexivity|]. left. now repeat split. }
  unfold get_current_aqi.
  destruct (Py.truthy (py_and (arg_float E rq "lat") (arg_float E rq "lon")))
    eqn:Ht; cbn [negb].
  2:{ eexists _, _, _. split; [reflexivity|]. right. left. now repeat split. }
  rewrite truthy_and in Ht. apply andb_true_iff in Ht as [Hlat Hlon].
  apply arg_float_truthy in Hlat as (lat & -> & Hlat).
  apply arg_float_truthy in Hlon as (lon & -> & Hlon).
  rewrite (bind_lift_run _ _ _ lat eq_refl).
  rewrite (bind_lift_run _ _ _ lon eq_refl).
  destruct (fetch_current_aqi_returns E lat lon w)
    as (data & w1 & Hf & Htr & Hsent & _).
  rewrite (bind_run _ _ _ _ _ Hf). rewrite Htr.
  destruct (save_to_database_world E data None w1) as (new & l & Hs).
  rewrite (bind_run _ _ _ _ _ Hs). unfold ret.
  eexists _, _, _. split; [reflexivity|]. right. right.
  split; [reflexivity|]. split; [exact Hk|].
  exists lat, lon, w1. repeat (split; [assumption || reflexivity|]).
  exact Hsent.
Qed.

(** The forecast route never raises, never answers 500 and never writes
    to the Store.  It answers 401 when the key is not accepted, 400 when
    lat or lon is missing, unreadable or zero, and in every other case 200
    with what fetch_forecast_aqi returned, after one upstream request. *)
Theorem route_forecast_answers (rq : request) (w : world) :
  exists body status w',
    route_forecast E rq w = (Ok (body, status), w')
    /\ store w' = store w
    /\ ((status = 401%Z /\ ~ key_accepted E rq /\ w' = w)
        \/ (status = 400%Z /\ key_accepted E rq /\ w' = w
            /\ Py.truthy (py_and (arg_float E rq "lat") (arg_float E rq "lon"))
               = false)
        \/ (status = 200%Z /\ key_accepted E rq
            /\ exists lat lon,
                 arg_float E rq "lat" = PFloat lat
                 /\ arg_float E rq "lon" = PFloat lon
                 /\ ~ lat == 0 /\ ~ lon == 0
                 /\ fetch_forecast_aqi E lat lon w = (Ok body, w')
                 /\ sent w' = sent w ++ [GetForecast lat lon])).
Proof.
  unfold route_forecast.
  destruct (require_api_key_cases (get_forecast_aqi E) rq w)
    as [[Hk ->] | [Hk ->]].
  2:{ eexists _, _, _. split; [reflexivity|]. split; [reflexivity|].
      left. now repeat split. }
  unfold get_forecast_aqi.
  destruct (Py.truthy (py_and (arg_float E rq "lat") (arg_float E rq "lon")))
    eqn:Ht; cbn [negb].
  2:{ eexists _, _, _. split; [reflexivity|]. split; [reflexivity|].
      right. left. now repeat split. }
  rewrite truthy_and in Ht. apply andb_true_iff in Ht as [Hlat Hlon].
  apply arg_float_truthy in Hlat as (lat & -> & Hlat).
  apply arg_float_truthy in Hlon as (lon & -> & Hlon).
  rewrite (bind_lift_run _ _ _ lat eq_refl).
  rewrite (bind_lift_run _ _ _ lon eq_refl).
  destruct (fetch_forecast_aqi_total E lat lon w)
    as (data & w1 & Hf & Htr & Hstore & Hsent).
  rewrite (bind_run _ _ _ _ _ Hf). rewrite Htr. unfold ret.
  eexists _, _, _. split; [reflexivity|]. split; [exact Hstore|].
  right. right. split; [reflexivity|]. split; [exact Hk|].
  exists lat, lon. now repeat split.
Qed.





End RouteAnswers.

Section BackfillTwice.

Variable E : env.

Lemma fetch_upstream_with_log (rq : http_request) (l : list log_entry)
  (w : world) :
  fetch_upstream rq (with_log l w)
  = (fst (fetch_upstream rq w), with_log l (snd (fetch_upstream rq w))).
Proof.
  unfold fetch_upstream, bind, requests_get, raise_for_status, response_json.
  cbn [upstream sent with_log].
  destruct (upstream w (List.length (sent w))) as [|status [body|]];
    cbn; unfold lift, ret; try reflexivity;
    destruct ((400 <=? status)%Z && (status <? 600)%Z); cbn; try reflexivity.
  destruct (Py.setitem body "source" (PStr "OpenWeatherMap API")); reflexivity.
Qed.

Lemma int64_between (a b t : Z) :
  int64 a = true -> int64 b = true -> (a <= t <= b)%Z -> int64 t = true.
Proof.
  unfold int64. intros Ha Hb Ht.
  apply andb_true_iff in Ha as [Ha _]. apply andb_true_iff in Hb as [_ Hb].
  apply Z.leb_le in Ha, Hb. apply andb_true_iff. split; apply Z.leb_le; lia.
Qed.

Lemma fake_observation_ok (lat lon : Q) (t : Z) (r : nat -> Q) (p : nat) :
  int64 t = true -> is_observation (fake_observation E lat lon t r p) = true.
Proof.
  intro Ht. unfold is_observation, fake_observation.
  cbn [Py.getitem Py.lookup String.eqb Ascii.eqb Bool.eqb].
  rewrite Ht. cbn [andb].
  apply andb_true_iff. split; [|reflexivity].
  apply (int64_between 1 5); [reflexivity | reflexivity | lia].
Qed.

Lemma hours_in_range (start_time end_time : Z) (i : nat) :
  (i < Z.to_nat ((end_time - start_time) / 3600 + 1))%nat ->
  (start_time <= start_time + 3600 * Z.of_nat i <= end_time)%Z.
Proof.
  intro Hi.
  assert (H : (3600 * ((end_time - start_time) / 3600)
               <= end_time - start_time)%Z)
    by (apply Z.mul_div_le; lia).
  lia.
Qed.

(** The rows one backfill of a location writes when the provider is
    down. *)
Lemma populate_location_fills (lat lon : Q) (name : string)
  (start_time end_time : Z) (w w1 : world) (e : exn) :
  db_fault w = NoFault ->
  fetch_upstream (GetHistory lat lon start_time end_time) w = (Raise e, w1) ->
  int64 start_time = true -> int64 end_time = true ->
  (start_time <= end_time)%Z ->
  (List.length (Sql.select_range (store w) (lat - 0.1) (lat + 0.1)
                  (lon - 0.1) (lon + 0.1) start_time end_time) < 576)%nat ->
  exists w' new,
    populate_location E start_time end_time (lat, lon, name) w = (Ok tt, w')
    /\ db_fault w' = NoFault
    /\ store w' = store w ++ new
    /\ List.length new = Z.to_nat ((end_time - start_time) / 3600 + 1)
    /\ Forall (fun r => Sql.in_range (lat - 0.1) (lat + 0.1) (lon - 0.1)
                          (lon + 0.1) start_time end_time r = true) new.
Proof.
  intros Hfault Hup Hs He Hle Hfew.
  unfold populate_location.
  assert (Hq : get_historical_from_db lat lon start_time end_time w
               = (Ok (Sql.select_range (store w) (lat - 0.1) (lat + 0.1)
                        (lon - 0.1) (lon + 0.1) start_time end_time), w)).
  { unfold get_historical_from_db, try_except.
    now rewrite query_body_no_fault. }
  rewrite (bind_run _ _ _ _ _ Hq), threshold_576.
  apply Nat.ltb_lt in Hfew. rewrite Hfew.
  unfold bind at 1, logger at 1.
  set (n := Z.to_nat ((end_time - start_time) / 3600 + 1)).
  set (items := map (fun i => fake_observation E lat lon
                                (start_time + 3600 * Z.of_nat i)
                                (random w) (drawn w + 9 * i)) (seq 0 n)).
  set (named := PDict [ ("coord", PList [PFloat lat; PFloat lon]);
                        ("list", PList items);
                        ("source", PStr "Synthetic Fallback");
                        ("location_name", PStr name) ]).
  match goal with
  | |- context [bind (fetch_historical_aqi E lat lon start_time end_time)
                     _ ?w0] =>
      assert (Hfetch : exists w2,
                fetch_historical_aqi E lat lon start_time end_time w0
                = (Ok (PDict [ ("coord", PList [PFloat lat; PFloat lon]);
                               ("list", PList items);
                               ("source", PStr "Synthetic Fallback") ]), w2)
                /\ db_fault w2 = NoFault /\ store w2 = store w)
  end.
  { unfold fetch_historical_aqi, try_except.
    rewrite fetch_upstream_with_log, Hup. cbn [fst snd].
    unfold bind at 1, logger at 1. unfold bind at 1, logger at 1.
    unfold generate_bulk_historical_data, bind.
    rewrite (bulk_loop_eq E lat lon end_time n).
    2:{ destruct (Z_le_dec start_time end_time); [reflexivity | lia]. }
    pose proof (fetch_upstream_world _ _ _ _ Hup) as ->.
    cbn. eexists. split; [reflexivity|]. cbn. now split. }
  destruct Hfetch as (w2 & Hfetch & Hfault2 & Hstore2).
  rewrite (bind_run _ _ _ _ _ Hfetch). cbn [Py.truthy].
  rewrite (bind_lift_run _ _ _ named eq_refl).
  assert (Hobs : forallb is_observation items = true).
  { apply forallb_forall. intros obs Hin. unfold items in Hin.
    apply in_map_iff in Hin as (i & <- & Hi). apply in_seq in Hi.
    apply fake_observation_ok.
    apply (int64_between start_time end_time); [exact Hs | exact He|].
    apply hours_in_range. fold n. lia. }
  assert (Henv : is_envelope named = true).
  { unfold is_envelope, named.
    cbn [envelope_coord Py.getitem Py.lookup String.eqb Ascii.eqb Bool.eqb
         is_number andb source_or_unknown source_of location_name_of].
    now rewrite Hobs. }
  destruct (save_to_database_envelope E named (Some name) w2 Hfault2 Henv)
    as (la & lo & new & Hcoord & Hla & Hlo & Hsave & Hrows).
  injection Hcoord as <- <-.
  change (observations named) with items in Hrows, Hsave.
  pose proof (rows_of_observations _ _ _ _ _ _ _ Hobs Hrows) as Hmatch.
  assert (Hrange : forall obs t, In obs items -> dt_of obs = Some t ->
                                 (start_time <= t <= end_time)%Z).
  { intros obs t Hin Hdt. unfold items in Hin.
    apply in_map_iff in Hin as (i & <- & Hi). apply in_seq in Hi.
    injection Hdt as <-. apply hours_in_range. fold n. lia. }
  pose proof (rows_in_range E named (PFloat lat) (PFloat lon) _ lat lon
                start_time end_time items new Hla Hlo eq_refl eq_refl
                Hrange Hmatch Hrows) as Hin.
  rewrite Hsave. eexists _, new. split; [reflexivity|].
  cbn [db_fault store with_log with_store].
  split; [exact Hfault2|]. split; [now rewrite Hstore2|].
  split; [|exact Hin].
  rewrite <- (Forall2_length Hrows). unfold items.
  now rewrite length_map, length_seq.
Qed.

(** The backfill of a location is idempotent when the provider is down: on
    a working store, with a window of 575 hours or more, after one run the
    range query over the window returns at least 576 rows, and a second
    run over the same window sends no request and writes no row. *)
Theorem backfill_idempotent (lat lon : Q) (name : string)
  (start_time end_time : Z) (w w1 : world) (e : exn) :
  db_fault w = NoFault ->
  fetch_upstream (GetHistory lat lon start_time end_time) w = (Raise e, w1) ->
  int64 start_time = true -> int64 end_time = true ->
  (2070000 <= end_time - start_time)%Z ->
  exists w' rows,
    populate_location E start_time end_time (lat, lon, name) w = (Ok tt, w')
    /\ get_historical_from_db lat lon start_time end_time w' = (Ok rows, w')
    /\ (576 <= List.length rows)%nat
    /\ populate_location E start_time end_time (lat, lon, name) w'
       = (Ok tt, with_log (log w' ++ [InfoSufficient name (List.length rows)])
                          w').
Proof.
  intros Hfault Hup Hs He Hlen.
  assert (Hsecond : forall w',
            db_fault w' = NoFault ->
            (576 <= List.length
                      (Sql.select_range (store w') (lat - 0.1) (lat + 0.1)
                         (lon - 0.1) (lon + 0.1) start_time end_time))%nat ->
            exists rows,
              get_historical_from_db lat lon start_time end_time w'
              = (Ok rows, w')
              /\ (576 <= List.length rows)%nat
              /\ populate_location E start_time end_time (lat, lon, name) w'
                 = (Ok tt,
                    with_log (log w' ++ [InfoSufficient name
                                           (List.length rows)]) w')).
  { intros w' Hf Hmany.
    assert (Hq : get_historical_from_db lat lon start_time end_time w'
                 = (Ok (Sql.select_range (store w') (lat - 0.1) (lat + 0.1)
                          (lon - 0.1) (lon + 0.1) start_time end_time), w')).
    { unfold get_historical_from_db, try_except.
      now rewrite query_body_no_fault. }
    eexists. split; [exact Hq|]. split; [exact Hmany|].
    unfold populate_location.
    rewrite (bind_run _ _ _ _ _ Hq), threshold_576.
    apply Nat.ltb_ge in Hmany. now rewrite Hmany. }
  destruct (Nat.lt_ge_cases
              (List.length
                 (Sql.select_range (store w) (lat - 0.1) (lat + 0.1)
                    (lon - 0.1) (lon + 0.1) start_time end_time)) 576)
    as [Hfew | Hmany].
  - destruct (populate_location_fills lat lon name start_time end_time w w1 e
                Hfault Hup Hs He ltac:(lia) Hfew)
      as (w' & new & Hrun & Hfault' & Hstore & Hnew & Hin).
    assert (Hmany : (576 <= List.length
                       (Sql.select_range (store w') (lat - 0.1) (lat + 0.1)
                          (lon - 0.1) (lon + 0.1) start_time end_time))%nat).
    { unfold Sql.select_range.
      rewrite (Permutation_length (order_by_timestamp_perm _)).
      rewrite Hstore, filter_app, (filter_all _ _ Hin), length_app, Hnew.
      assert (575 <= (end_time - start_time) / 3600)%Z
        by (apply Z.div_le_lower_bound; lia).
      lia. }
    destruct (Hsecond w' Hfault' Hmany) as (rows & Hq & Hrows & Hrun').
    now exists w', rows.
  - destruct (Hsecond w Hfault Hmany) as (rows & Hq & Hrows & Hrun).
    set (w' := with_log (log w ++ [InfoSufficient name (List.length rows)]) w).
    destruct (Hsecond w' Hfault Hmany) as (rows' & Hq' & Hrows' & Hrun').
    exists w', rows'. now repeat split.
Qed.

End BackfillTwice.

Lemma backfill_idempotent_witness :
  exists w' rows,
    populate_location example_env 1697408000 1700000000
                      (51.5074, -0.1278, "London") example_world = (Ok tt, w')
    /\ get_historical_from_db 51.5074 (-0.1278) 1697408000 1700000000 w'
       = (Ok rows, w')
    /\ (576 <= List.length rows)%nat
    /\ populate_location example_env 1697408000 1700000000
                         (51.5074, -0.1278, "London") w'
       = (Ok tt, with_log (log w' ++ [InfoSufficient "London"
                                        (List.length rows)]) w').
Proof.
  apply (backfill_idempotent example_env 51.5074 (-0.1278) "London"
           1697408000 1700000000 example_world
           (with_sent [GetHistory 51.5074 (-0.1278) 1697408000 1700000000]
                      example_world)
           ConnectionError);
    [reflexivity | reflexivity | reflexivity | reflexivity | lia].
Defined.

(** Two batches that leave the table as it was: the second item of the
    first has no timestamp, and the second has no coordinates. *)
Example broken_batch_stores_nothing :
  store (snd (save_to_database example_env broken_batch None example_world))
  = []
  /\ store (snd (save_to_database example_env reading_without_coord None
                                  example_world)) = [].
Proof. split; vm_compute; reflexivity. Qed.
